(** * SpaceEngineersLift: the performance model and the advisory scorer

    A shallow embedding of [models.py], [ai_assistant.py] and the export
    path of [utils.py], followed by the properties of the specification
    that concern them.

    Number model.  Python [int] is [Z].  Python [float] is read as an
    exact rational ([Q]): rounding, overflow, NaN and infinities are not
    modelled, so every statement about [mass], [gravity] and the values
    derived from them is a statement about the formulas in exact
    arithmetic.  Equality of such values is [Qeq] ([==]).

    Exceptions.  A Python call that may raise returns a [result]; [Raise]
    carries the exception. *)

From Stdlib Require Import ZArith QArith Qabs Qminmax Lqa Lia.
From Stdlib Require Import String Ascii List Bool.
Import ListNotations.

Local Open Scope string_scope.
Local Open Scope Z_scope.

(** ** Exceptions and the error monad *)

Inductive exn : Type :=
| ZeroDivisionError
| KeyError (key : string)
| TypeError (msg : string)
| ServiceError (msg : string).

(** [str(e)] *)
Definition str_exn (e : exn) : string :=
  match e with
  | ZeroDivisionError => "float division by zero"
  | KeyError k => "'" ++ k ++ "'"
  | TypeError m => m
  | ServiceError m => m
  end.

Inductive result (A : Type) : Type :=
| Ok (a : A)
| Raise (e : exn).

Arguments Ok {A} a.
Arguments Raise {A} e.

Definition bind {A B : Type} (r : result A) (k : A -> result B) : result B :=
  match r with
  | Ok a => k a
  | Raise e => Raise e
  end.

Notation "x <- r ;; k" := (bind r (fun x => k))
  (at level 61, r at next level, right associativity).

(** ** Python numbers *)

Definition Qltb (x y : Q) : bool := negb (Qle_bool y x).

(** [x / y] on floats: raises on a zero divisor. *)
Definition py_div (x y : Q) : result Q :=
  if Qeq_bool y 0 then Raise ZeroDivisionError else Ok (x / y)%Q.

(** [max(a, b)]: the first argument unless the second is strictly greater. *)
Definition py_max (a b : Q) : Q := if Qltb a b then b else a.

(** [min(a, b)]: the first argument unless the second is strictly smaller. *)
Definition py_min (a b : Q) : Q := if Qltb b a then b else a.

(** ** Python dicts: insertion-ordered association lists with string keys *)

Definition dict (V : Type) : Type := list (string * V).

(** [d[k]] *)
Fixpoint getitem {V : Type} (d : dict V) (k : string) : result V :=
  match d with
  | [] => Raise (KeyError k)
  | (k', v) :: d' => if String.eqb k' k then Ok v else getitem d' k
  end.

(** [d.values()] *)
Definition values {V : Type} (d : dict V) : list V := map snd d.

(** [sum(xs)] over integers: starts from 0 and adds left to right. *)
Definition sumZ (xs : list Z) : Z := fold_left Z.add xs 0.

(** [sum(xs)] over floats. *)
Definition sumQ (xs : list Q) : Q := fold_left Qplus xs (0 : Q).

(** ** models.py *)

(** THRUSTER_SPECS, in Newtons *)
Definition THRUSTER_SPECS : dict (dict Z) :=
  [ ("atmospheric", [ ("small", 82000); ("large", 408000) ]);
    ("ion",         [ ("small", 14400); ("large", 172800) ]);
    ("hydrogen",    [ ("small", 98400); ("large", 478800) ]) ].

Record ThrusterCount : Type := mkThrusterCount {
  small : Z;
  large : Z
}.

(** [ThrusterCount()] : both counts default to 0. *)
Definition ThrusterCount_default : ThrusterCount := mkThrusterCount 0 0.

(** ThrusterCount.calculate_thrust *)
Definition calculate_thrust (self : ThrusterCount) (thrust_type : string)
  : result Z :=
  specs <- getitem THRUSTER_SPECS thrust_type ;;
  fs <- getitem specs "small" ;;
  fl <- getitem specs "large" ;;
  Ok (small self * fs + large self * fl).

(** The dataclass after construction: [__post_init__] has run, so the three
    thruster fields hold [ThrusterCount] objects. *)
Record GridSpecifications : Type := mkGridSpecifications {
  mass : Q;
  gravity : Q;
  atmospheric_thrusters : ThrusterCount;
  ion_thrusters : ThrusterCount;
  hydrogen_thrusters : ThrusterCount
}.

(** [x or ThrusterCount()].  [None] is falsy; a [ThrusterCount] instance is a
    dataclass with neither [__bool__] nor [__len__], hence always truthy. *)
Definition or_default (x : option ThrusterCount) : ThrusterCount :=
  match x with
  | Some tc => tc
  | None => ThrusterCount_default
  end.

(** Default Earth gravity, 9.81 *)
Definition default_gravity : Q := 981 # 100.

(** The generated [__init__] followed by [__post_init__].  An argument that
    is omitted, or passed as [None] for a thruster field, is [None] here. *)
Definition GridSpecifications_init
    (mass_arg : Q) (gravity_arg : option Q)
    (atmospheric_arg ion_arg hydrogen_arg : option ThrusterCount)
  : GridSpecifications :=
  {| mass := mass_arg;
     gravity := match gravity_arg with Some g => g | None => default_gravity end;
     atmospheric_thrusters := or_default atmospheric_arg;
     ion_thrusters := or_default ion_arg;
     hydrogen_thrusters := or_default hydrogen_arg |}.

(** GridSpecifications.calculate_thrust_by_type *)
Definition calculate_thrust_by_type (self : GridSpecifications)
  : result (dict Z) :=
  a <- calculate_thrust (atmospheric_thrusters self) "atmospheric" ;;
  i <- calculate_thrust (ion_thrusters self) "ion" ;;
  h <- calculate_thrust (hydrogen_thrusters self) "hydrogen" ;;
  Ok [ ("atmospheric", a); ("ion", i); ("hydrogen", h) ].

(** GridSpecifications.calculate_total_thrust *)
Definition calculate_total_thrust (self : GridSpecifications) : result Z :=
  thrusts <- calculate_thrust_by_type self ;;
  Ok (sumZ (values thrusts)).

(** GridSpecifications.calculate_lift_capacity *)
Definition calculate_lift_capacity (self : GridSpecifications) : result Q :=
  total_thrust <- calculate_total_thrust self ;;
  py_div (inject_Z total_thrust - mass self * gravity self)%Q (gravity self).

(** *** Serialised form

    The values that [to_dict] builds and [json] carries. *)

#[warnings="-register-all"] Inductive pyval : Type :=
| PNone
| PInt (z : Z)
| PFloat (q : Q)
| PStr (s : string)
| PDict (d : list (string * pyval)).

(** An entry of a keyword-argument dict: a plain value, or a [ThrusterCount]
    object already built by [ThrusterCount.from_dict]. *)
Inductive kwarg : Type :=
| KVal (v : pyval)
| KThrusters (tc : ThrusterCount).

(** [d[k] = v]: overwrites in place, or appends a new key. *)
Fixpoint setitem {V : Type} (d : dict V) (k : string) (v : V) : dict V :=
  match d with
  | [] => [ (k, v) ]
  | (k', v') :: d' =>
      if String.eqb k' k then (k', v) :: d' else (k', v') :: setitem d' k v
  end.

(** [k in d] *)
Definition contains {V : Type} (d : dict V) (k : string) : bool :=
  existsb (fun kv => String.eqb (fst kv) k) d.

(** A call of [cls] with the keywords of [kw] rejects a keyword that is not a
    field. *)
Definition check_keywords {V : Type} (fields : list string) (kw : dict V)
  : result unit :=
  match find (fun kv => negb (existsb (String.eqb (fst kv)) fields)) kw with
  | Some (k, _) =>
      Raise (TypeError ("__init__() got an unexpected keyword argument '" ++ k ++ "'"))
  | None => Ok tt
  end.

(** The records of this development are typed, so a value of another type in
    a numeric field is refused here (Python would store it unchecked). *)
Definition as_int (v : pyval) : result Z :=
  match v with
  | PInt z => Ok z
  | _ => Raise (TypeError "int expected")
  end.

Definition as_number (v : pyval) : result Q :=
  match v with
  | PInt z => Ok (inject_Z z)
  | PFloat q => Ok q
  | _ => Raise (TypeError "number expected")
  end.

Definition as_mapping (v : pyval) : result (dict pyval) :=
  match v with
  | PDict d => Ok d
  | _ => Raise (TypeError "argument after ** must be a mapping")
  end.

(** ThrusterCount.to_dict *)
Definition ThrusterCount_to_dict (self : ThrusterCount) : dict pyval :=
  [ ("small", PInt (small self)); ("large", PInt (large self)) ].

(** ThrusterCount.from_dict: [cls] called with the entries of [data] as
    keywords *)
Definition ThrusterCount_from_dict (data : pyval) : result ThrusterCount :=
  kw <- as_mapping data ;;
  _ <- check_keywords [ "small"; "large" ] kw ;;
  s <- (if contains kw "small" then v <- getitem kw "small" ;; as_int v else Ok 0) ;;
  l <- (if contains kw "large" then v <- getitem kw "large" ;; as_int v else Ok 0) ;;
  Ok (mkThrusterCount s l).

(** GridSpecifications.to_dict *)
Definition GridSpecifications_to_dict (self : GridSpecifications) : dict pyval :=
  [ ("mass", PFloat (mass self));
    ("gravity", PFloat (gravity self));
    ("atmospheric_thrusters", PDict (ThrusterCount_to_dict (atmospheric_thrusters self)));
    ("ion_thrusters", PDict (ThrusterCount_to_dict (ion_thrusters self)));
    ("hydrogen_thrusters", PDict (ThrusterCount_to_dict (hydrogen_thrusters self))) ].

(** A thruster keyword of the constructor call: absent or [None] is [None];
    an object is itself. *)
Definition thrusters_kwarg (kw : dict kwarg) (k : string)
  : result (option ThrusterCount) :=
  if contains kw k then
    a <- getitem kw k ;;
    match a with
    | KThrusters tc => Ok (Some tc)
    | KVal PNone => Ok None
    | KVal _ => Raise (TypeError "ThrusterCount expected")
    end
  else Ok None.

Definition number_kwarg (a : kwarg) : result Q :=
  match a with
  | KVal v => as_number v
  | KThrusters _ => Raise (TypeError "number expected")
  end.

(** [GridSpecifications] called with the entries of [kw] as keywords *)
Definition GridSpecifications_kwargs (kw : dict kwarg)
  : result GridSpecifications :=
  _ <- check_keywords
         [ "mass"; "gravity"; "atmospheric_thrusters"; "ion_thrusters";
           "hydrogen_thrusters" ] kw ;;
  m <- (if contains kw "mass" then a <- getitem kw "mass" ;; number_kwarg a
        else Raise (TypeError "__init__() missing 1 required positional argument: 'mass'")) ;;
  g <- (if contains kw "gravity"
        then a <- getitem kw "gravity" ;; q <- number_kwarg a ;; Ok (Some q)
        else Ok None) ;;
  at_ <- thrusters_kwarg kw "atmospheric_thrusters" ;;
  io <- thrusters_kwarg kw "ion_thrusters" ;;
  hy <- thrusters_kwarg kw "hydrogen_thrusters" ;;
  Ok (GridSpecifications_init m g at_ io hy).

(** GridSpecifications.from_dict *)
Definition GridSpecifications_from_dict (data : dict pyval)
  : result GridSpecifications :=
  let specs_data := map (fun kv => (fst kv, KVal (snd kv))) data in
  v <- getitem data "atmospheric_thrusters" ;;
  tc <- ThrusterCount_from_dict v ;;
  let specs_data := setitem specs_data "atmospheric_thrusters" (KThrusters tc) in
  v <- getitem data "ion_thrusters" ;;
  tc <- ThrusterCount_from_dict v ;;
  let specs_data := setitem specs_data "ion_thrusters" (KThrusters tc) in
  v <- getitem data "hydrogen_thrusters" ;;
  tc <- ThrusterCount_from_dict v ;;
  let specs_data := setitem specs_data "hydrogen_thrusters" (KThrusters tc) in
  GridSpecifications_kwargs specs_data.

Record Preset : Type := mkPreset {
  name : string;
  specifications : GridSpecifications
}.

(** The [json] module is a collaborator outside the repository: the text it
    writes and its two functions are parameters. *)
Section Json.

Variable json_text : Type.
Variable json_dumps : pyval -> json_text.
Variable json_loads : json_text -> result pyval.

(** Preset.save *)
Definition Preset_save (self : Preset) : json_text :=
  json_dumps
    (PDict [ ("name", PStr (name self));
             ("specifications",
              PDict (GridSpecifications_to_dict (specifications self))) ]).

(** Preset.load *)
Definition Preset_load (data : json_text) : result Preset :=
  v <- json_loads data ;;
  parsed <- match v with
            | PDict d => Ok d
            | _ => Raise (TypeError "indices must be integers")
            end ;;
  n <- getitem parsed "name" ;;
  n <- match n with
       | PStr s => Ok s
       | _ => Raise (TypeError "str expected")
       end ;;
  sp <- getitem parsed "specifications" ;;
  sp <- as_mapping sp ;;
  specification <- GridSpecifications_from_dict sp ;;
  Ok (mkPreset n specification).

End Json.

(** ** Python strings *)

Definition LF : ascii := "010"%char.

Definition NL : string := String LF EmptyString.

Definition is_LF (c : ascii) : bool := Ascii.eqb c LF.

Definition push_front (c : ascii) (segments : list string) : list string :=
  match segments with
  | [] => [ String c EmptyString ]
  | seg :: rest => String c seg :: rest
  end.

(** [s.split("\n\n")]: cuts at each occurrence of two line feeds, found from
    the left and not overlapping.  The result is never empty. *)
Fixpoint split_blank_lines (s : string) : list string :=
  match s with
  | EmptyString => [ "" ]
  | String c1 s1 =>
      match s1 with
      | EmptyString => [ String c1 EmptyString ]
      | String c2 s2 =>
          if is_LF c1 && is_LF c2 then "" :: split_blank_lines s2
          else push_front c1 (split_blank_lines s1)
      end
  end.

Definition is_lower (c : ascii) : bool :=
  let n := nat_of_ascii c in (97 <=? n)%nat && (n <=? 122)%nat.

Definition is_upper (c : ascii) : bool :=
  let n := nat_of_ascii c in (65 <=? n)%nat && (n <=? 90)%nat.

Definition to_upper (c : ascii) : ascii :=
  if is_lower c then ascii_of_nat (nat_of_ascii c - 32) else c.

Definition to_lower (c : ascii) : ascii :=
  if is_upper c then ascii_of_nat (nat_of_ascii c + 32) else c.

(** [s.title()] on ASCII text: a letter that follows a letter is lowered, any
    other letter is raised. *)
Fixpoint title_from (after_letter : bool) (s : string) : string :=
  match s with
  | EmptyString => EmptyString
  | String c s' =>
      if is_lower c || is_upper c
      then String (if after_letter then to_lower c else to_upper c)
                  (title_from true s')
      else String c (title_from false s')
  end.

Definition title (s : string) : string := title_from false s.

(** ** ai_assistant.py and utils.py *)

(** The inline expression
    [total_thrust / (specs.mass * specs.gravity) if specs.mass > 0 else 0]
    of [analyze_grid] and [_generate_suggested_changes]. *)
Definition guarded_twr (specs : GridSpecifications) (total_thrust : Z)
  : result Q :=
  if Qltb 0 (mass specs)
  then py_div (inject_Z total_thrust) (mass specs * gravity specs)%Q
  else Ok (0 : Q).

(** The unguarded expression [total_thrust / (specs.mass * specs.gravity)] of
    [utils.py] and [main.py]. *)
Definition unguarded_twr (specs : GridSpecifications) (total_thrust : Z)
  : result Q :=
  py_div (inject_Z total_thrust) (mass specs * gravity specs)%Q.

(** ThrusterAIAssistant._analyze_thrust_balance *)
Definition _analyze_thrust_balance (distribution : dict Q) : result string :=
  if forallb (fun v => Qeq_bool v 0) (values distribution)
  then Ok "No thrusters configured"
  else
    a <- getitem distribution "atmospheric" ;;
    if Qltb 60 a
    then Ok "Heavy atmospheric focus - consider diversifying for space operations"
    else
      i <- getitem distribution "ion" ;;
      if Qltb 60 i
      then Ok "Heavy ion focus - may struggle in atmosphere"
      else
        h <- getitem distribution "hydrogen" ;;
        if Qltb 60 h
        then Ok "Heavy hydrogen focus - check fuel efficiency"
        else Ok "Balanced thrust distribution".

(** ThrusterAIAssistant._calculate_efficiency_score *)
Definition _calculate_efficiency_score (specs : GridSpecifications)
  : result Q :=
  total_thrust <- calculate_total_thrust specs ;;
  if (total_thrust =? 0) || Qeq_bool (mass specs) 0
  then Ok (0 : Q)
  else
    twr <- py_div (inject_Z total_thrust) (mass specs * gravity specs)%Q ;;
    let base_score := py_min 100 (py_max 0 (twr * 20)%Q) in
    thrusts <- calculate_thrust_by_type specs ;;
    ideal_thrust <- py_div (inject_Z total_thrust) 3 ;;
    distribution_penalty <-
      (if 0 <? total_thrust
       then
         q <- py_div
                (sumQ (map (fun t => Qabs (inject_Z t - ideal_thrust)%Q)
                           (values thrusts)))
                (inject_Z total_thrust) ;;
         Ok (q * 20)%Q
       else Ok (100 : Q)) ;;
    Ok (py_max 0 (py_min 100 (base_score - distribution_penalty)%Q)).

(** ThrusterAIAssistant._generate_suggested_changes *)
Definition _generate_suggested_changes (specs : GridSpecifications)
  : result (list string) :=
  let suggestions : list string := [] in
  total_thrust <- calculate_total_thrust specs ;;
  if total_thrust =? 0
  then Ok [ "Add thrusters to begin analysis" ]
  else
    twr <- guarded_twr specs total_thrust ;;
    let suggestions :=
      if Qeq_bool twr 0
      then (suggestions ++ [ "Add mass and thrusters to calculate thrust-to-weight ratio" ])%list
      else if Qltb twr (3 # 2)
      then (suggestions ++ [ "Add more thrusters to improve lift capacity" ])%list
      else if Qltb 4 twr
      then (suggestions ++ [ "Consider reducing thrust for better efficiency" ])%list
      else suggestions in
    thrusts <- calculate_thrust_by_type specs ;;
    low_atmospheric <-
      (if Qltb 0 (mass specs)
       then a <- getitem thrusts "atmospheric" ;;
            Ok (Qltb (inject_Z a) (mass specs * gravity specs)%Q)
       else Ok false) ;;
    let suggestions :=
      if low_atmospheric
      then (suggestions ++ [ "Increase atmospheric thrusters for better planet performance" ])%list
      else suggestions in
    low_space <-
      (if Qltb 0 (mass specs)
       then i <- getitem thrusts "ion" ;;
            h <- getitem thrusts "hydrogen" ;;
            Ok (Qltb (inject_Z (i + h)) (mass specs * gravity specs)%Q)
       else Ok false) ;;
    let suggestions :=
      if low_space
      then (suggestions ++ [ "Increase ion/hydrogen thrusters for space operations" ])%list
      else suggestions in
    Ok suggestions.

(** [try: body except Exception as e: handler(e)] *)
Definition try_except {A : Type} (body : result A) (handler : exn -> result A)
  : result A :=
  match body with
  | Ok a => Ok a
  | Raise e => handler e
  end.

Fixpoint map_result {A B : Type} (f : A -> result B) (l : list A)
  : result (list B) :=
  match l with
  | [] => Ok []
  | x :: l' => y <- f x ;; ys <- map_result f l' ;; Ok (y :: ys)
  end.

(** The value returned by [suggest_improvements]. *)
Record Suggestions : Type := mkSuggestions {
  thrust_balance : string;
  efficiency_score : Q;
  suggested_changes : list string
}.

(** ThrusterAIAssistant.suggest_improvements *)
Definition suggest_improvements (current_specs : GridSpecifications)
  : result Suggestions :=
  thrusts <- calculate_thrust_by_type current_specs ;;
  total_thrust <- calculate_total_thrust current_specs ;;
  if total_thrust =? 0
  then Ok (mkSuggestions "No thrusters configured" 0
                         [ "Add thrusters to begin analysis" ])
  else
    thrust_distribution <-
      map_result
        (fun kv : string * Z =>
           if 0 <? total_thrust
           then q <- py_div (inject_Z (snd kv)) (inject_Z total_thrust) ;;
                Ok (fst kv, (q * 100)%Q)
           else Ok (fst kv, (0 : Q)))
        thrusts ;;
    balance <- _analyze_thrust_balance thrust_distribution ;;
    score <- _calculate_efficiency_score current_specs ;;
    changes <- _generate_suggested_changes current_specs ;;
    Ok (mkSuggestions balance score changes).

(** Text formatting and the completion service are collaborators outside the
    core: they are parameters of what follows.  [py_format x spec] is
    [format(x, spec)], [str_float] and [str_int] are [str] on numbers, and
    [chat_completion system user] is the content of the first choice of the
    service's answer, or the exception of the failed call. *)
Section Collaborators.

Variable py_format : Q -> string -> string.
Variable str_float : Q -> string.
Variable str_int : Z -> string.
Variable chat_completion : string -> string -> result string.

(** utils.format_number *)
Definition format_number (number : Q) : string := py_format number ",.2f".

(** ThrusterAIAssistant.__init__ : the system prompt *)
Definition system_prompt : string :=
  NL ++ "You are an AI assistant specializing in Space Engineers thruster configurations." ++ NL
  ++ "Analyze grid specifications and provide optimization suggestions." ++ NL
  ++ "Focus on:" ++ NL
  ++ "- Thruster type distribution" ++ NL
  ++ "- Mass-to-thrust ratio" ++ NL
  ++ "- Power efficiency" ++ NL
  ++ "- Atmospheric vs Space performance" ++ NL
  ++ "Provide specific, actionable recommendations." ++ NL.

(** ThrusterAIAssistant.analyze_grid *)
Definition analyze_grid (specs : GridSpecifications)
  : result (dict string) :=
  thrusts <- calculate_thrust_by_type specs ;;
  total_thrust <- calculate_total_thrust specs ;;
  lift_capacity <- calculate_lift_capacity specs ;;
  twr <- guarded_twr specs total_thrust ;;
  atmospheric <- getitem thrusts "atmospheric" ;;
  ion <- getitem thrusts "ion" ;;
  hydrogen <- getitem thrusts "hydrogen" ;;
  let prompt :=
    NL ++ "Current Grid Configuration:" ++ NL
    ++ "- Mass: " ++ py_format (mass specs) ",.2f" ++ " kg" ++ NL
    ++ "- Total Thrust: " ++ py_format (inject_Z total_thrust) ",.2f" ++ " N" ++ NL
    ++ "- Thrust-to-Weight Ratio: " ++ py_format twr ".2f" ++ NL
    ++ "- Atmospheric Thrust: " ++ py_format (inject_Z atmospheric) ",.2f" ++ " N" ++ NL
    ++ "- Ion Thrust: " ++ py_format (inject_Z ion) ",.2f" ++ " N" ++ NL
    ++ "- Hydrogen Thrust: " ++ py_format (inject_Z hydrogen) ",.2f" ++ " N" ++ NL
    ++ "- Lift Capacity: " ++ py_format lift_capacity ",.2f" ++ " kg" ++ NL
    ++ NL
    ++ "Please analyze this configuration and provide:" ++ NL
    ++ "1. Efficiency Assessment: Evaluate the current setup's efficiency" ++ NL
    ++ "2. Optimization Suggestions: Recommend improvements" ++ NL
    ++ "3. Use Case Analysis: Suggest ideal scenarios for this configuration" ++ NL in
  try_except
    (analysis <- chat_completion system_prompt prompt ;;
     let sections := split_blank_lines analysis in
     Ok [ ("efficiency",
           if (0 <? length sections)%nat then nth 0 sections ""
           else "Analysis unavailable");
          ("optimization",
           if (1 <? length sections)%nat then nth 1 sections ""
           else "No optimization suggestions");
          ("use_cases",
           if (2 <? length sections)%nat then nth 2 sections ""
           else "No use case analysis") ])
    (fun e =>
       Ok [ ("efficiency", "Error analyzing efficiency: " ++ str_exn e);
            ("optimization", "Analysis unavailable");
            ("use_cases", "Analysis unavailable") ]).

(** utils.export_grid_to_csv: the rows handed to the csv writer, in order. *)
Definition export_grid_to_csv (specs : GridSpecifications)
  : result (list (list string)) :=
  let output : list (list string) :=
    [ [ "Space Engineers Grid Specifications" ];
      [];
      [ "Basic Specifications" ];
      [ "Mass (kg)"; str_float (mass specs) ];
      [ "Gravity (m/s²)"; str_float (gravity specs) ];
      [];
      [ "Thruster Configuration" ];
      [ "Type"; "Small"; "Large" ];
      [ "Atmospheric"; str_int (small (atmospheric_thrusters specs));
        str_int (large (atmospheric_thrusters specs)) ];
      [ "Ion"; str_int (small (ion_thrusters specs));
        str_int (large (ion_thrusters specs)) ];
      [ "Hydrogen"; str_int (small (hydrogen_thrusters specs));
        str_int (large (hydrogen_thrusters specs)) ];
      [];
      [ "Performance Analysis" ] ] in
  thrusts <- calculate_thrust_by_type specs ;;
  total_thrust <- calculate_total_thrust specs ;;
  lift_capacity <- calculate_lift_capacity specs ;;
  let output :=
    (output ++ [ [ "Total Thrust (N)"; format_number (inject_Z total_thrust) ] ])%list in
  let output :=
    (output ++
     map (fun kv : string * Z =>
            [ (title (fst kv) ++ " Thrust (N)")%string; format_number (inject_Z (snd kv)) ])
         thrusts)%list in
  let output :=
    (output ++ [ [ "Required Hover Thrust (N)";
                   format_number (mass specs * gravity specs)%Q ] ])%list in
  let output :=
    (output ++ [ [ "Lift Capacity (kg)"; format_number lift_capacity ] ])%list in
  twr <- unguarded_twr specs total_thrust ;;
  let output :=
    (output ++ [ [ "Thrust-to-Weight Ratio"; format_number twr ] ])%list in
  Ok output.

End Collaborators.

(** ** block_specs.py *)

(** BLOCK_MASSES, in kg *)
Definition BLOCK_MASSES : dict (dict Z) :=
  [ ("light_armor_block", [ ("small", 25); ("large", 1220) ]);
    ("heavy_armor_block", [ ("small", 87); ("large", 4170) ]);
    ("steel_plate",       [ ("small", 20); ("large", 980) ]);
    ("interior_plate",    [ ("small", 3); ("large", 120) ]);
    ("cargo_container",   [ ("small", 128); ("large", 2175) ]);
    ("refinery",          [ ("small", 2000); ("large", 15400) ]);
    ("assembler",         [ ("small", 1000); ("large", 3360) ]);
    ("reactor",           [ ("small", 368); ("large", 4860) ]) ].

(** The loop of [calculate_total_mass] over [block_counts.items()], from the
    running [total_mass]. *)
Fixpoint total_mass_loop (items : dict (Z * Z)) (total_mass : Q) : result Q :=
  match items with
  | [] => Ok total_mass
  | (block_type, (small_count, large_count)) :: rest =>
      if contains BLOCK_MASSES block_type
      then
        block_specs <- getitem BLOCK_MASSES block_type ;;
        ms <- getitem block_specs "small" ;;
        ml <- getitem block_specs "large" ;;
        total_mass_loop rest
          (total_mass + inject_Z (small_count * ms + large_count * ml))%Q
      else total_mass_loop rest total_mass
  end.

(** block_specs.calculate_total_mass *)
Definition calculate_total_mass (block_counts : dict (Z * Z)) : result Q :=
  total_mass_loop block_counts (0 : Q).

(** ** utils.py: presets, charts and the report *)

(** A row of the frame behind the comparison chart. *)
Record ChartRow : Type := mkChartRow {
  row_grid : string;
  row_thruster_type : string;
  row_thrust : Z
}.

(** A trace of the radar chart: its radial values and its name. *)
Record Trace : Type := mkTrace {
  trace_r : list Q;
  trace_name : string
}.

(** The three tables of the PDF report. *)
Record ReportTables : Type := mkReportTables {
  basic_data : list (list string);
  thruster_data : list (list string);
  performance_data : list (list string)
}.

(** [st.session_state.presets] is absent ([None]) until the first save, then
    a dict from preset names to saved JSON text.  The figures are drawn by
    collaborators outside the core: the chart functions return the data they
    hand over. *)
Section Session.

Variable json_text : Type.
Variable json_dumps : pyval -> json_text.
Variable json_loads : json_text -> result pyval.

(** utils.save_preset: the session's presets after the call. *)
Definition save_preset (session_presets : option (dict json_text))
    (preset : Preset) : option (dict json_text) :=
  let presets :=
    match session_presets with
    | None => []
    | Some presets => presets
    end in
  Some (setitem presets (name preset) (Preset_save json_text json_dumps preset)).

(** utils.load_preset *)
Definition load_preset (session_presets : option (dict json_text))
    (name : string) : result (option Preset) :=
  match session_presets with
  | None => Ok None
  | Some presets =>
      if negb (contains presets name) then Ok None
      else
        text <- getitem presets name ;;
        preset <- Preset_load json_text json_loads text ;;
        Ok (Some preset)
  end.

(** The loop of [create_comparison_chart] over [presets.items()]. *)
Fixpoint comparison_loop (items : dict json_text) (data : list ChartRow)
  : result (list ChartRow) :=
  match items with
  | [] => Ok data
  | (name, preset_json) :: rest =>
      preset <- Preset_load json_text json_loads preset_json ;;
      let specs := specifications preset in
      thrusts <- calculate_thrust_by_type specs ;;
      a <- getitem thrusts "atmospheric" ;;
      i <- getitem thrusts "ion" ;;
      h <- getitem thrusts "hydrogen" ;;
      comparison_loop rest
        (data ++ [ mkChartRow name "Atmospheric" a;
                   mkChartRow name "Ion" i;
                   mkChartRow name "Hydrogen" h ])%list
  end.

(** utils.create_comparison_chart: the rows of the frame it plots. *)
Definition create_comparison_chart (presets : dict json_text)
  : result (list ChartRow) :=
  comparison_loop presets [].

(** The radial values computed for one grid in [create_metrics_comparison]:
    total thrust, lift capacity and ratio against their reference values. *)
Definition radar_values (specs : GridSpecifications) : result (list Q) :=
  total_thrust <- calculate_total_thrust specs ;;
  lift_capacity <- calculate_lift_capacity specs ;;
  twr <- unguarded_twr specs total_thrust ;;
  let max_thrust := 10000000%Q in
  let max_lift := 1000000%Q in
  let max_twr := 10%Q in
  r0 <- py_div (inject_Z total_thrust) max_thrust ;;
  r1 <- (if Qltb 0 lift_capacity then py_div lift_capacity max_lift
         else Ok (0 : Q)) ;;
  r2 <- py_div twr max_twr ;;
  Ok [ r0; r1; py_min r2 1 ].

(** The loop of [create_metrics_comparison] over [presets.items()]. *)
Fixpoint metrics_loop (items : dict json_text) (data : list Trace)
  : result (list Trace) :=
  match items with
  | [] => Ok data
  | (name, preset_json) :: rest =>
      preset <- Preset_load json_text json_loads preset_json ;;
      let specs := specifications preset in
      radial <- radar_values specs ;;
      metrics_loop rest (data ++ [ mkTrace radial name ])%list
  end.

(** utils.create_metrics_comparison: the traces of the figure. *)
Definition create_metrics_comparison (presets : dict json_text)
  : result (list Trace) :=
  metrics_loop presets [].

End Session.

Section Report.

Variable py_format : Q -> string -> string.
Variable str_int : Z -> string.

(** utils.create_pdf_report: the tables given to the document builder. *)
Definition create_pdf_report (specs : GridSpecifications)
  : result ReportTables :=
  let basic :=
    [ [ "Mass (kg)"; format_number py_format (mass specs) ];
      [ "Gravity (m/s²)"; format_number py_format (gravity specs) ] ] in
  let thrusters :=
    [ [ "Type"; "Small"; "Large" ];
      [ "Atmospheric"; str_int (small (atmospheric_thrusters specs));
        str_int (large (atmospheric_thrusters specs)) ];
      [ "Ion"; str_int (small (ion_thrusters specs));
        str_int (large (ion_thrusters specs)) ];
      [ "Hydrogen"; str_int (small (hydrogen_thrusters specs));
        str_int (large (hydrogen_thrusters specs)) ] ] in
  thrusts <- calculate_thrust_by_type specs ;;
  total_thrust <- calculate_total_thrust specs ;;
  lift_capacity <- calculate_lift_capacity specs ;;
  a <- getitem thrusts "atmospheric" ;;
  i <- getitem thrusts "ion" ;;
  h <- getitem thrusts "hydrogen" ;;
  twr <- unguarded_twr specs total_thrust ;;
  Ok (mkReportTables basic thrusters
        [ [ "Metric"; "Value" ];
          [ "Total Thrust (N)"; format_number py_format (inject_Z total_thrust) ];
          [ "Atmospheric Thrust (N)"; format_number py_format (inject_Z a) ];
          [ "Ion Thrust (N)"; format_number py_format (inject_Z i) ];
          [ "Hydrogen Thrust (N)"; format_number py_format (inject_Z h) ];
          [ "Required Hover Thrust (N)";
            format_number py_format (mass specs * gravity specs)%Q ];
          [ "Lift Capacity (kg)"; format_number py_format lift_capacity ];
          [ "Thrust-to-Weight Ratio"; format_number py_format twr ] ]).

(** utils.get_thrust_tooltip *)
Definition get_thrust_tooltip (thruster_type : string) : result string :=
  specs <- getitem THRUSTER_SPECS thruster_type ;;
  fs <- getitem specs "small" ;;
  fl <- getitem specs "large" ;;
  Ok ("Small: " ++ format_number py_format (inject_Z fs) ++ "N each" ++ NL
      ++ "Large: " ++ format_number py_format (inject_Z fl) ++ "N each").

End Report.

(** * Specification-side definitions

    These follow the words of the specification; the theorems below relate
    them to the functions embedded from the source. *)

(** [forceTable[type][size]] *)
Definition forceTable (propulsion size : string) : Z :=
  match getitem THRUSTER_SPECS propulsion with
  | Ok sizes => match getitem sizes size with Ok f => f | Raise _ => 0 end
  | Raise _ => 0
  end.

(** thrustByType, one propulsion type *)
Definition thrustOfType (propulsion : string) (count : ThrusterCount) : Z :=
  small count * forceTable propulsion "small"
  + large count * forceTable propulsion "large".

Definition atmosphericThrust (s : GridSpecifications) : Z :=
  thrustOfType "atmospheric" (atmospheric_thrusters s).

Definition ionThrust (s : GridSpecifications) : Z :=
  thrustOfType "ion" (ion_thrusters s).

Definition hydrogenThrust (s : GridSpecifications) : Z :=
  thrustOfType "hydrogen" (hydrogen_thrusters s).

(** totalThrust *)
Definition totalThrust (s : GridSpecifications) : Z :=
  atmosphericThrust s + ionThrust s + hydrogenThrust s.

(** clamp(x, lo, hi) *)
Definition clamp (x lo hi : Q) : Q := Qmax lo (Qmin hi x).

(** efficiencyScore, in the non-degenerate case *)
Definition efficiencyScore_formula (s : GridSpecifications) : Q :=
  let total := inject_Z (totalThrust s) in
  let twr := (total / (mass s * gravity s))%Q in
  let base := clamp (twr * 20) 0 100 in
  let idealShare := (total / 3)%Q in
  let penalty :=
    ((Qabs (inject_Z (atmosphericThrust s) - idealShare)
      + Qabs (inject_Z (ionThrust s) - idealShare)
      + Qabs (inject_Z (hydrogenThrust s) - idealShare))
     / total * 20)%Q in
  clamp (base - penalty) 0 100.

(** thrustToWeightRatio: [totalThrust / (mass*gravity)], 0 by convention when
    the mass is 0, and the division error of zero gravity otherwise. *)
Definition thrustToWeightRatio (s : GridSpecifications) : result Q :=
  if Qeq_bool (mass s) 0 then Ok (0 : Q)
  else py_div (inject_Z (totalThrust s)) (mass s * gravity s)%Q.

(** Rule (b) of suggestedChanges: the advice drawn from the ratio. *)
Definition twr_advice (twr : Q) : list string :=
  if Qeq_bool twr 0
  then [ "Add mass and thrusters to calculate thrust-to-weight ratio" ]
  else if Qltb twr (3 # 2)
  then [ "Add more thrusters to improve lift capacity" ]
  else if Qltb 4 twr
  then [ "Consider reducing thrust for better efficiency" ]
  else [].

(** suggestedChanges: rules (a) to (d), in this order. *)
Definition suggestedChanges (s : GridSpecifications) : result (list string) :=
  if totalThrust s =? 0
  then Ok [ "Add thrusters to begin analysis" ]
  else
    twr <- thrustToWeightRatio s ;;
    let hover := (mass s * gravity s)%Q in
    Ok (twr_advice twr
        ++ (if Qltb (inject_Z (atmosphericThrust s)) hover
            then [ "Increase atmospheric thrusters for better planet performance" ]
            else [])
        ++ (if Qltb (inject_Z (ionThrust s + hydrogenThrust s)) hover
            then [ "Increase ion/hydrogen thrusters for space operations" ]
            else []))%list.

(** The verdicts of thrustBalanceVerdict and the text the source gives each. *)
Inductive Verdict : Type :=
| NoThrusters
| AtmosphericHeavy
| IonHeavy
| HydrogenHeavy
| Balanced.

Definition verdict_text (v : Verdict) : string :=
  match v with
  | NoThrusters => "No thrusters configured"
  | AtmosphericHeavy =>
      "Heavy atmospheric focus - consider diversifying for space operations"
  | IonHeavy => "Heavy ion focus - may struggle in atmosphere"
  | HydrogenHeavy => "Heavy hydrogen focus - check fuel efficiency"
  | Balanced => "Balanced thrust distribution"
  end.

(** A distribution of three percentages, as [suggest_improvements] builds
    it. *)
Definition distribution_of (a i h : Q) : dict Q :=
  [ ("atmospheric", a); ("ion", i); ("hydrogen", h) ].

(** The [k]-th blank-line-separated segment of a response, or the
    placeholder when there is none. *)
Definition segment_or (k : nat) (placeholder text : string) : string :=
  match nth_error (split_blank_lines text) k with
  | Some seg => seg
  | None => placeholder
  end.

(** Segments joined again by blank lines. *)
Fixpoint join_blank_lines (segments : list string) : string :=
  match segments with
  | [] => ""
  | seg :: rest =>
      match rest with
      | [] => seg
      | _ :: _ => seg ++ NL ++ NL ++ join_blank_lines rest
      end
  end.

(** [needle in hay] *)
Fixpoint is_infix (needle hay : string) : bool :=
  String.prefix needle hay
  || match hay with
     | EmptyString => false
     | String _ hay' => is_infix needle hay'
     end.

(** Non-negative thruster counts, mass and gravity: the invariant of the data
    model. *)
Definition counts_non_negative (s : GridSpecifications) : Prop :=
  0 <= small (atmospheric_thrusters s) /\ 0 <= large (atmospheric_thrusters s) /\
  0 <= small (ion_thrusters s) /\ 0 <= large (ion_thrusters s) /\
  0 <= small (hydrogen_thrusters s) /\ 0 <= large (hydrogen_thrusters s).

Definition non_negative_input (s : GridSpecifications) : Prop :=
  (0 <= mass s)%Q /\ (0 <= gravity s)%Q /\ counts_non_negative s.

(** ** Notions used by the further properties *)

(** The mass one entry of [block_counts] stands for: its counts times the
    table's masses, nothing for a block type the table does not list. *)
Definition entry_mass (item : string * (Z * Z)) : Z :=
  match getitem BLOCK_MASSES (fst item) with
  | Ok block_specs =>
      match getitem block_specs "small", getitem block_specs "large" with
      | Ok ms, Ok ml => fst (snd item) * ms + snd (snd item) * ml
      | _, _ => 0
      end
  | Raise _ => 0
  end.

(** The keys of a dict, in order. *)
Definition keys {V : Type} (d : dict V) : list string := map fst d.

(** The session after a sequence of saves. *)
Definition save_all {json_text : Type} (json_dumps : pyval -> json_text)
    (session_presets : option (dict json_text)) (presets : list Preset)
  : option (dict json_text) :=
  fold_left (save_preset json_text json_dumps) presets session_presets.

(** The three rows a preset contributes to the comparison chart. *)
Definition chart_rows (p : Preset) : list ChartRow :=
  [ mkChartRow (name p) "Atmospheric" (atmosphericThrust (specifications p));
    mkChartRow (name p) "Ion" (ionThrust (specifications p));
    mkChartRow (name p) "Hydrogen" (hydrogenThrust (specifications p)) ].

(** A presets dict whose entries were written by [Preset.save], under the
    presets' names. *)
Definition saved_presets {json_text : Type} (json_dumps : pyval -> json_text)
    (ps : list Preset) : dict json_text :=
  map (fun p => (name p, Preset_save json_text json_dumps p)) ps.

(** A text holds two line feeds in a row. *)
Fixpoint has_blank_line (s : string) : bool :=
  match s with
  | EmptyString => false
  | String c1 s1 =>
      match s1 with
      | EmptyString => false
      | String c2 _ => (is_LF c1 && is_LF c2) || has_blank_line s1
      end
  end.

(** The verdict read off the integer thrusts: a type is heavy when five times
    its thrust exceeds three times the total, that is, above 60 percent. *)
Definition verdict_of_thrusts (a i h : Z) : Verdict :=
  let total := a + i + h in
  if 3 * total <? 5 * a then AtmosphericHeavy
  else if 3 * total <? 5 * i then IonHeavy
  else if 3 * total <? 5 * h then HydrogenHeavy
  else Balanced.

(** ** Sample inputs and intermediate values *)

(** Scenario of the specification: mass 1000 kg, gravity 9.81, two small
    atmospheric thrusters. *)
Definition scenario_grid : GridSpecifications :=
  GridSpecifications_init 1000 (Some (981 # 100))
    (Some (mkThrusterCount 2 0)) None None.

(** A grid of mass 1 with one small atmospheric thruster, under zero
    gravity. *)
Definition weightless_grid : GridSpecifications :=
  mkGridSpecifications 1 0 (mkThrusterCount 1 0) ThrusterCount_default
                       ThrusterCount_default.

(** The value computed on the branch past the zero guard, when the total
    thrust is positive. *)
Definition score_past_guard (s : GridSpecifications) : Q :=
  let total := inject_Z (totalThrust s) in
  let twr := (total / (mass s * gravity s))%Q in
  let ideal := (total / 3)%Q in
  py_max 0
    (py_min 100
       (py_min 100 (py_max 0 (twr * 20)%Q)
        - sumQ [ Qabs (inject_Z (atmosphericThrust s) - ideal)%Q;
                 Qabs (inject_Z (ionThrust s) - ideal)%Q;
                 Qabs (inject_Z (hydrogenThrust s) - ideal)%Q ]
          / total * 20)%Q).

(** A completion service that is down, and a formatter that prints
    nothing. *)
Definition failing_service (_ _ : string) : result string :=
  Raise (ServiceError "Connection timed out").

Definition blank_format (_ : Q) (_ : string) : string := "".

(** Counts as the block calculator collects them, with one block type the
    mass table does not list. *)
Definition sample_block_counts : dict (Z * Z) :=
  [ ("light_armor_block", (10, 2)); ("warp_core", (1, 1));
    ("reactor", (0, 1)) ].

(** * Properties *)

(** ** Arithmetic helpers *)

Lemma Qltb_lt (x y : Q) : Qltb x y = true <-> (x < y)%Q.
Proof.
  unfold Qltb. rewrite negb_true_iff.
  split; intros H.
  - apply Qnot_le_lt. intros Hle. apply Qle_bool_iff in Hle. congruence.
  - destruct (Qle_bool y x) eqn:E; [| reflexivity].
    apply Qle_bool_iff in E. exfalso. apply (Qlt_not_le _ _ H E).
Qed.

Lemma Qltb_ge (x y : Q) : Qltb x y = false <-> (y <= x)%Q.
Proof.
  unfold Qltb. rewrite negb_false_iff. apply Qle_bool_iff.
Qed.

Lemma Qeq_bool_false (x y : Q) : Qeq_bool x y = false <-> ~ (x == y)%Q.
Proof.
  split; intros H.
  - intros E. apply Qeq_bool_iff in E. congruence.
  - destruct (Qeq_bool x y) eqn:E; [| reflexivity].
    apply Qeq_bool_iff in E. contradiction.
Qed.

Lemma py_div_ok (x y : Q) : ~ (y == 0)%Q -> py_div x y = Ok (x / y)%Q.
Proof.
  intros H. unfold py_div. apply Qeq_bool_false in H. now rewrite H.
Qed.

Lemma py_div_zero (x y : Q) : (y == 0)%Q -> py_div x y = Raise ZeroDivisionError.
Proof.
  intros H. unfold py_div. apply Qeq_bool_iff in H. now rewrite H.
Qed.

Lemma sumZ_from (l : list Z) (a : Z) : fold_left Z.add l a = a + sumZ l.
Proof.
  unfold sumZ. revert a.
  induction l as [| x l IH]; intros a; simpl.
  - lia.
  - rewrite (IH (a + x)), (IH x). lia.
Qed.

Lemma sumZ_cons (x : Z) (l : list Z) : sumZ (x :: l) = x + sumZ l.
Proof. unfold sumZ at 1. simpl. apply sumZ_from. Qed.

(** ** The performance model computes the specification's thrust values *)

Lemma calculate_thrust_by_type_eq (s : GridSpecifications) :
  calculate_thrust_by_type s =
  Ok [ ("atmospheric", atmosphericThrust s); ("ion", ionThrust s);
       ("hydrogen", hydrogenThrust s) ].
Proof. reflexivity. Qed.

Lemma calculate_total_thrust_eq (s : GridSpecifications) :
  calculate_total_thrust s = Ok (totalThrust s).
Proof.
  unfold calculate_total_thrust. rewrite calculate_thrust_by_type_eq.
  cbn [bind values map snd]. rewrite !sumZ_cons. unfold totalThrust, sumZ.
  simpl. f_equal. lia.
Qed.

Lemma totalThrust_non_negative (s : GridSpecifications) :
  counts_non_negative s ->
  0 <= atmosphericThrust s /\ 0 <= ionThrust s /\ 0 <= hydrogenThrust s.
Proof.
  unfold counts_non_negative, atmosphericThrust, ionThrust, hydrogenThrust,
    thrustOfType.
  change (forceTable "atmospheric" "small") with 82000.
  change (forceTable "atmospheric" "large") with 408000.
  change (forceTable "ion" "small") with 14400.
  change (forceTable "ion" "large") with 172800.
  change (forceTable "hydrogen" "small") with 98400.
  change (forceTable "hydrogen" "large") with 478800.
  lia.
Qed.

(** The force table of the source. *)
Example forceTable_entries :
  forceTable "atmospheric" "small" = 82000 /\
  forceTable "atmospheric" "large" = 408000 /\
  forceTable "ion" "small" = 14400 /\
  forceTable "ion" "large" = 172800 /\
  forceTable "hydrogen" "small" = 98400 /\
  forceTable "hydrogen" "large" = 478800.
Proof. repeat split. Qed.

Example scenario_thrust :
  calculate_thrust_by_type scenario_grid =
  Ok [ ("atmospheric", 164000); ("ion", 0); ("hydrogen", 0) ] /\
  calculate_total_thrust scenario_grid = Ok 164000.
Proof. split; reflexivity. Qed.

Example scenario_lift_capacity :
  exists v, calculate_lift_capacity scenario_grid = Ok v /\
            (v == (164000 - 9810) / (981 # 100))%Q.
Proof. eexists. split; [ reflexivity | reflexivity ]. Qed.

(** C1. Each propulsion type's thrust is [small_count] times the force
    table's small entry plus [large_count] times its large entry;
    [calculate_thrust_by_type] holds these three values, and
    [calculate_total_thrust] is their sum, whatever the order in which the
    three values are added.  It holds for all integer counts, in particular
    for the non-negative ones. *)
Theorem thrust_by_type_and_total (s : GridSpecifications) (tc : ThrusterCount) :
  calculate_thrust tc "atmospheric"
  = Ok (small tc * forceTable "atmospheric" "small"
        + large tc * forceTable "atmospheric" "large") /\
  calculate_thrust tc "ion"
  = Ok (small tc * forceTable "ion" "small"
        + large tc * forceTable "ion" "large") /\
  calculate_thrust tc "hydrogen"
  = Ok (small tc * forceTable "hydrogen" "small"
        + large tc * forceTable "hydrogen" "large") /\
  calculate_thrust_by_type s
  = Ok [ ("atmospheric", thrustOfType "atmospheric" (atmospheric_thrusters s));
         ("ion", thrustOfType "ion" (ion_thrusters s));
         ("hydrogen", thrustOfType "hydrogen" (hydrogen_thrusters s)) ] /\
  (let a := atmosphericThrust s in
   let i := ionThrust s in
   let h := hydrogenThrust s in
   calculate_total_thrust s = Ok (a + i + h) /\
   calculate_total_thrust s = Ok (sumZ [ a; h; i ]) /\
   calculate_total_thrust s = Ok (sumZ [ i; a; h ]) /\
   calculate_total_thrust s = Ok (sumZ [ i; h; a ]) /\
   calculate_total_thrust s = Ok (sumZ [ h; a; i ]) /\
   calculate_total_thrust s = Ok (sumZ [ h; i; a ])).
Proof.
  repeat split; try reflexivity;
    rewrite calculate_total_thrust_eq; unfold totalThrust;
    rewrite ?sumZ_cons; unfold sumZ; simpl; f_equal; lia.
Qed.

(** C2. With positive gravity the lift capacity is
    [(totalThrust - mass*gravity) / gravity]; with zero gravity the call
    raises [ZeroDivisionError] and returns no value. *)
Theorem lift_capacity_formula_and_zero_gravity (s : GridSpecifications) :
  ((0 < gravity s)%Q ->
   calculate_lift_capacity s
   = Ok ((inject_Z (totalThrust s) - mass s * gravity s) / gravity s)%Q) /\
  ((gravity s == 0)%Q ->
   calculate_lift_capacity s = Raise ZeroDivisionError /\
   forall v, calculate_lift_capacity s <> Ok v).
Proof.
  unfold calculate_lift_capacity. rewrite calculate_total_thrust_eq.
  cbn [bind]. split; intros H.
  - apply py_div_ok. intros E. rewrite E in H. discriminate H.
  - rewrite (py_div_zero _ _ H). split; [ reflexivity | discriminate ].
Qed.

Lemma lift_capacity_formula_and_zero_gravity_witness :
  calculate_lift_capacity scenario_grid
  = Ok ((inject_Z 164000 - 1000 * (981 # 100)) / (981 # 100))%Q /\
  calculate_lift_capacity
    (mkGridSpecifications 1000 0 (mkThrusterCount 2 0) ThrusterCount_default
                          ThrusterCount_default)
  = Raise ZeroDivisionError.
Proof.
  split.
  - apply (proj1 (lift_capacity_formula_and_zero_gravity scenario_grid)).
    reflexivity.
  - apply (proj2 (lift_capacity_formula_and_zero_gravity
                    (mkGridSpecifications 1000 0 (mkThrusterCount 2 0)
                       ThrusterCount_default ThrusterCount_default))).
    reflexivity.
Defined.

(** C10. A thruster argument that is omitted or [None] becomes the zero
    [ThrusterCount]; omitted gravity is 9.81; a supplied argument is kept.
    On every constructed value the thrust metrics are defined, and with the
    default gravity so is the lift capacity. *)
Theorem constructor_defaults
  (m : Q) (g : option Q) (a i h : option ThrusterCount) :
  atmospheric_thrusters (GridSpecifications_init m g None i h)
  = mkThrusterCount 0 0 /\
  ion_thrusters (GridSpecifications_init m g a None h) = mkThrusterCount 0 0 /\
  hydrogen_thrusters (GridSpecifications_init m g a i None)
  = mkThrusterCount 0 0 /\
  gravity (GridSpecifications_init m None a i h) = (981 # 100)%Q /\
  (forall ta ti th g',
     GridSpecifications_init m (Some g') (Some ta) (Some ti) (Some th)
     = mkGridSpecifications m g' ta ti th) /\
  (exists thrusts total,
     calculate_thrust_by_type (GridSpecifications_init m g a i h) = Ok thrusts /\
     calculate_total_thrust (GridSpecifications_init m g a i h) = Ok total) /\
  (exists lift,
     calculate_lift_capacity (GridSpecifications_init m None a i h) = Ok lift).
Proof.
  repeat split.
  - do 2 eexists. split.
    + apply calculate_thrust_by_type_eq.
    + apply calculate_total_thrust_eq.
  - eexists. unfold calculate_lift_capacity.
    rewrite calculate_total_thrust_eq. cbn [bind]. reflexivity.
Qed.

(** ** Serialisation round trip *)

Lemma ThrusterCount_round_trip (tc : ThrusterCount) :
  ThrusterCount_from_dict (PDict (ThrusterCount_to_dict tc)) = Ok tc.
Proof. destruct tc. reflexivity. Qed.

Lemma GridSpecifications_round_trip (s : GridSpecifications) :
  GridSpecifications_from_dict (GridSpecifications_to_dict s) = Ok s.
Proof.
  destruct s as [m g [a1 a2] [i1 i2] [h1 h2]]. reflexivity.
Qed.

Example from_dict_missing_mass :
  GridSpecifications_from_dict
    [ ("atmospheric_thrusters", PDict []); ("ion_thrusters", PDict []);
      ("hydrogen_thrusters", PDict []) ]
  = Raise (TypeError "__init__() missing 1 required positional argument: 'mass'").
Proof. reflexivity. Qed.

Example from_dict_defaults :
  GridSpecifications_from_dict
    [ ("mass", PInt 5); ("atmospheric_thrusters", PDict [ ("large", PInt 3) ]);
      ("ion_thrusters", PDict []); ("hydrogen_thrusters", PDict []) ]
  = Ok (mkGridSpecifications 5 (981 # 100) (mkThrusterCount 0 3)
          (mkThrusterCount 0 0) (mkThrusterCount 0 0)).
Proof. reflexivity. Qed.

Example from_dict_missing_thrusters :
  GridSpecifications_from_dict [ ("mass", PInt 5) ]
  = Raise (KeyError "atmospheric_thrusters").
Proof. reflexivity. Qed.

Section JsonRoundTrip.

Variable json_text : Type.
Variable json_dumps : pyval -> json_text.
Variable json_loads : json_text -> result pyval.

(** What the [json] module guarantees on the values built by [to_dict]:
    loading a dumped value gives the value back. *)
Hypothesis json_loads_dumps : forall v, json_loads (json_dumps v) = Ok v.

(** C9. [from_dict (to_dict s)] is [s], field by field, and a preset saved
    and loaded again is the same preset, given that [json.loads] inverts
    [json.dumps]. *)
Theorem serialisation_round_trip (p : Preset) :
  GridSpecifications_from_dict (GridSpecifications_to_dict (specifications p))
  = Ok (specifications p) /\
  (exists s',
     GridSpecifications_from_dict
       (GridSpecifications_to_dict (specifications p)) = Ok s' /\
     mass s' = mass (specifications p) /\
     gravity s' = gravity (specifications p) /\
     small (atmospheric_thrusters s') = small (atmospheric_thrusters (specifications p)) /\
     large (atmospheric_thrusters s') = large (atmospheric_thrusters (specifications p)) /\
     small (ion_thrusters s') = small (ion_thrusters (specifications p)) /\
     large (ion_thrusters s') = large (ion_thrusters (specifications p)) /\
     small (hydrogen_thrusters s') = small (hydrogen_thrusters (specifications p)) /\
     large (hydrogen_thrusters s') = large (hydrogen_thrusters (specifications p))) /\
  Preset_load json_text json_loads (Preset_save json_text json_dumps p) = Ok p.
Proof.
  split; [ apply GridSpecifications_round_trip | split ].
  - exists (specifications p).
    split; [ apply GridSpecifications_round_trip | repeat split ].
  - unfold Preset_load, Preset_save. rewrite json_loads_dumps.
    destruct p as [n s]. cbn [bind name specifications].
    change (getitem _ "name") with (Ok (PStr n)).
    cbn [bind].
    change (getitem _ "specifications")
      with (Ok (PDict (GridSpecifications_to_dict s))).
    cbn [bind as_mapping]. rewrite GridSpecifications_round_trip.
    reflexivity.
Qed.

End JsonRoundTrip.

Lemma serialisation_round_trip_witness :
  Preset_load pyval (fun v => Ok v)
    (Preset_save pyval (fun v => v) (mkPreset "miner" scenario_grid))
  = Ok (mkPreset "miner" scenario_grid).
Proof.
  apply (serialisation_round_trip pyval (fun v => v) (fun v => Ok v)
           (fun v => eq_refl) (mkPreset "miner" scenario_grid)).
Defined.

(** ** The efficiency score *)

Lemma py_max_cases (a b : Q) :
  ((a < b)%Q /\ py_max a b = b) \/ ((b <= a)%Q /\ py_max a b = a).
Proof.
  unfold py_max. destruct (Qltb a b) eqn:E.
  - left. split; [ now apply Qltb_lt | reflexivity ].
  - right. split; [ now apply Qltb_ge | reflexivity ].
Qed.

Lemma py_min_cases (a b : Q) :
  ((b < a)%Q /\ py_min a b = b) \/ ((a <= b)%Q /\ py_min a b = a).
Proof.
  unfold py_min. destruct (Qltb b a) eqn:E.
  - left. split; [ now apply Qltb_lt | reflexivity ].
  - right. split; [ now apply Qltb_ge | reflexivity ].
Qed.

Ltac py_minmax_cases :=
  repeat match goal with
    | |- context [py_max ?a ?b] =>
        let E := fresh "E" in
        destruct (py_max_cases a b) as [[? E] | [? E]]; rewrite !E in *; clear E
    | |- context [py_min ?a ?b] =>
        let E := fresh "E" in
        destruct (py_min_cases a b) as [[? E] | [? E]]; rewrite !E in *; clear E
    | _ : context [py_max ?a ?b] |- _ =>
        let E := fresh "E" in
        destruct (py_max_cases a b) as [[? E] | [? E]]; rewrite !E in *; clear E
    | _ : context [py_min ?a ?b] |- _ =>
        let E := fresh "E" in
        destruct (py_min_cases a b) as [[? E] | [? E]]; rewrite !E in *; clear E
    end.

Lemma py_clamp_bounds (x : Q) :
  (0 <= py_max 0 (py_min 100 x) /\ py_max 0 (py_min 100 x) <= 100)%Q.
Proof. py_minmax_cases; split; lra. Qed.

Lemma py_max_min_clamp (x y : Q) :
  (x == y)%Q -> (py_max 0 (py_min 100 x) == clamp y 0 100)%Q.
Proof.
  intros E. unfold clamp.
  destruct (Q.max_spec 0 (Qmin 100 y)) as [[? ?] | [? ?]];
    destruct (Q.min_spec 100 y) as [[? ?] | [? ?]];
    py_minmax_cases; lra.
Qed.

Lemma py_min_max_clamp (x y : Q) :
  (x == y)%Q -> (py_min 100 (py_max 0 x) == clamp y 0 100)%Q.
Proof.
  intros E. unfold clamp.
  destruct (Q.max_spec 0 (Qmin 100 y)) as [[? ?] | [? ?]];
    destruct (Q.min_spec 100 y) as [[? ?] | [? ?]];
    py_minmax_cases; lra.
Qed.

Lemma inject_Z_nonzero (z : Z) : z <> 0 -> ~ (inject_Z z == 0)%Q.
Proof. intros H E. unfold Qeq in E. simpl in E. lia. Qed.

Lemma weight_nonzero (s : GridSpecifications) :
  ~ (mass s == 0)%Q -> ~ (gravity s == 0)%Q -> ~ (mass s * gravity s == 0)%Q.
Proof.
  intros Hm Hg E. destruct (Qmult_integral _ _ E); contradiction.
Qed.

Lemma efficiency_score_past_guard (s : GridSpecifications) :
  0 < totalThrust s -> ~ (mass s == 0)%Q -> ~ (gravity s == 0)%Q ->
  _calculate_efficiency_score s = Ok (score_past_guard s).
Proof.
  intros Ht Hm Hg. unfold _calculate_efficiency_score.
  rewrite calculate_total_thrust_eq. cbn [bind].
  replace (totalThrust s =? 0) with false by (symmetry; apply Z.eqb_neq; lia).
  apply Qeq_bool_false in Hm as Hm'. rewrite Hm'. cbn [orb].
  rewrite (py_div_ok _ _ (weight_nonzero s Hm Hg)). cbn [bind].
  rewrite calculate_thrust_by_type_eq. cbn [bind].
  rewrite (py_div_ok _ 3) by (intros E; discriminate E). cbn [bind].
  replace (0 <? totalThrust s) with true by (symmetry; apply Z.ltb_lt; lia).
  rewrite py_div_ok by (apply inject_Z_nonzero; lia).
  reflexivity.
Qed.

Lemma efficiency_score_degenerate (s : GridSpecifications) :
  totalThrust s = 0 \/ (mass s == 0)%Q ->
  _calculate_efficiency_score s = Ok (0 : Q).
Proof.
  intros H. unfold _calculate_efficiency_score.
  rewrite calculate_total_thrust_eq. cbn [bind].
  destruct H as [H | H].
  - rewrite H. reflexivity.
  - apply Qeq_bool_iff in H. rewrite H. now rewrite orb_true_r.
Qed.

Lemma score_past_guard_formula (s : GridSpecifications) :
  (score_past_guard s == efficiencyScore_formula s)%Q.
Proof.
  unfold score_past_guard, efficiencyScore_formula.
  cbv zeta. apply py_max_min_clamp.
  rewrite (py_min_max_clamp _ _ (Qeq_refl _)).
  unfold sumQ. cbn [fold_left].
  apply Qplus_comp; [ reflexivity |].
  apply Qopp_comp. apply Qmult_comp; [| reflexivity ].
  apply Qmult_comp; [| reflexivity ].
  ring.
Qed.

Example scenario_score :
  exists v, _calculate_efficiency_score scenario_grid = Ok v /\ (v == 220 # 3)%Q.
Proof. eexists. split; reflexivity. Qed.

(** C3, as stated, fails: under zero gravity, with positive mass and thrust,
    the score is not a value but a [ZeroDivisionError]. *)
Lemma efficiency_score_range_fails_at_zero_gravity :
  ~ (forall s : GridSpecifications,
       non_negative_input s ->
       exists v, _calculate_efficiency_score s = Ok v /\ (0 <= v)%Q /\ (v <= 100)%Q).
Proof.
  intros H.
  destruct (H weightless_grid) as [v [E _]].
  - unfold non_negative_input, counts_non_negative. simpl.
    repeat split; try lia; discriminate.
  - discriminate E.
Qed.

(** C3, amended. For non-negative mass and thruster counts and strictly
    positive gravity the score is a value in [0,100]; and whenever the total
    thrust is 0 or the mass is 0 the score is exactly 0, for any gravity. *)
Theorem efficiency_score_range (s : GridSpecifications) :
  non_negative_input s ->
  ((0 < gravity s)%Q ->
   exists v, _calculate_efficiency_score s = Ok v /\ (0 <= v)%Q /\ (v <= 100)%Q) /\
  (totalThrust s = 0 \/ (mass s == 0)%Q ->
   _calculate_efficiency_score s = Ok (0 : Q)).
Proof.
  intros (Hm & Hg & Hc). split; [| apply efficiency_score_degenerate ].
  intros Hpos.
  destruct (Z.eq_dec (totalThrust s) 0) as [Ht | Ht].
  - exists 0%Q. rewrite efficiency_score_degenerate by now left.
    repeat split; discriminate.
  - destruct (Qeq_dec (mass s) 0) as [Hz | Hz].
    + exists 0%Q. rewrite efficiency_score_degenerate by now right.
      repeat split; discriminate.
    + exists (score_past_guard s).
      split; [| apply py_clamp_bounds ].
      apply efficiency_score_past_guard; [| assumption |].
      * destruct (totalThrust_non_negative s Hc) as (? & ? & ?).
        unfold totalThrust in *. lia.
      * intros E. rewrite E in Hpos. discriminate Hpos.
Qed.

Lemma efficiency_score_range_witness :
  (exists v, _calculate_efficiency_score scenario_grid = Ok v /\
             (0 <= v)%Q /\ (v <= 100)%Q) /\
  _calculate_efficiency_score
    (mkGridSpecifications 0 0 (mkThrusterCount 1 0) ThrusterCount_default
                          ThrusterCount_default) = Ok (0 : Q).
Proof.
  split.
  - refine (proj1 (efficiency_score_range scenario_grid _) _).
    + repeat split; vm_compute; discriminate.
    + reflexivity.
  - refine (proj2 (efficiency_score_range
                     (mkGridSpecifications 0 0 (mkThrusterCount 1 0)
                        ThrusterCount_default ThrusterCount_default) _) _).
    + repeat split; vm_compute; discriminate.
    + right. reflexivity.
Defined.

(** C6. With positive total thrust, mass and gravity the score is
    [clamp(base - penalty, 0, 100)], where [base = clamp(twr*20, 0, 100)],
    [twr = totalThrust/(mass*gravity)], [idealShare = totalThrust/3] and
    [penalty] is the sum over the three per-type thrusts of
    [|value - idealShare|], divided by [totalThrust], times 20. *)
Theorem efficiency_score_formula (s : GridSpecifications) :
  0 < totalThrust s -> (0 < mass s)%Q -> (0 < gravity s)%Q ->
  exists v, _calculate_efficiency_score s = Ok v /\
            (v == efficiencyScore_formula s)%Q.
Proof.
  intros Ht Hm Hg. exists (score_past_guard s). split.
  - apply efficiency_score_past_guard; [ assumption | |];
      intros E; [ rewrite E in Hm | rewrite E in Hg ]; discriminate.
  - apply score_past_guard_formula.
Qed.

Lemma efficiency_score_formula_witness :
  exists v, _calculate_efficiency_score scenario_grid = Ok v /\
            (v == efficiencyScore_formula scenario_grid)%Q.
Proof.
  apply (efficiency_score_formula scenario_grid); reflexivity.
Defined.

(** ** Suggested changes *)

Lemma getitem_thrusts (a i h : Z) :
  let thrusts := [ ("atmospheric", a); ("ion", i); ("hydrogen", h) ] in
  getitem thrusts "atmospheric" = Ok a /\
  getitem thrusts "ion" = Ok i /\
  getitem thrusts "hydrogen" = Ok h.
Proof. repeat split. Qed.

Lemma no_thrust_below_zero_weight (s : GridSpecifications) (t : Z) :
  (mass s == 0)%Q -> 0 <= t ->
  Qltb (inject_Z t) (mass s * gravity s)%Q = false.
Proof.
  intros Hz Ht. apply Qltb_ge. rewrite Hz, Qmult_0_l.
  unfold Qle. simpl. lia.
Qed.

Lemma guarded_twr_is_ratio (s : GridSpecifications) :
  (0 <= mass s)%Q ->
  guarded_twr s (totalThrust s) = thrustToWeightRatio s.
Proof.
  intros Hm. unfold guarded_twr, thrustToWeightRatio.
  destruct (Qltb 0 (mass s)) eqn:E.
  - apply Qltb_lt in E.
    replace (Qeq_bool (mass s) 0) with false; [ reflexivity |].
    symmetry. apply Qeq_bool_false. intros Hz. rewrite Hz in E. discriminate E.
  - apply Qltb_ge in E.
    replace (Qeq_bool (mass s) 0) with true; [ reflexivity |].
    symmetry. apply Qeq_bool_iff. apply Qle_antisym; assumption.
Qed.

Lemma suggested_changes_no_thrust (s : GridSpecifications) :
  totalThrust s = 0 ->
  _generate_suggested_changes s = Ok [ "Add thrusters to begin analysis" ].
Proof.
  intros H. unfold _generate_suggested_changes.
  rewrite calculate_total_thrust_eq. cbn [bind]. now rewrite H.
Qed.

Lemma suggested_changes_refines (s : GridSpecifications) :
  (0 <= mass s)%Q -> counts_non_negative s ->
  _generate_suggested_changes s = suggestedChanges s.
Proof.
  intros Hm Hc.
  destruct (totalThrust_non_negative s Hc) as (Ha & Hi & Hh).
  unfold _generate_suggested_changes, suggestedChanges.
  rewrite calculate_total_thrust_eq. cbn [bind].
  destruct (totalThrust s =? 0); [ reflexivity |].
  rewrite (guarded_twr_is_ratio s Hm).
  destruct (thrustToWeightRatio s) as [twr | e]; [| reflexivity ].
  cbn [bind]. rewrite calculate_thrust_by_type_eq. cbn [bind].
  destruct (getitem_thrusts (atmosphericThrust s) (ionThrust s)
              (hydrogenThrust s)) as (Ga & Gi & Gh).
  cbv zeta in Ga, Gi, Gh. rewrite Ga, Gi, Gh. unfold twr_advice.
  destruct (Qltb 0 (mass s)) eqn:E.
  - cbn [bind].
    destruct (Qeq_bool twr 0), (Qltb twr (3 # 2)), (Qltb 4 twr),
      (Qltb (inject_Z (atmosphericThrust s)) (mass s * gravity s)),
      (Qltb (inject_Z (ionThrust s + hydrogenThrust s)) (mass s * gravity s));
      reflexivity.
  - apply Qltb_ge in E.
    assert (Hz : (mass s == 0)%Q) by (apply Qle_antisym; assumption).
    rewrite (no_thrust_below_zero_weight s _ Hz Ha).
    rewrite (no_thrust_below_zero_weight s (ionThrust s + hydrogenThrust s) Hz)
      by lia.
    cbn [bind].
    destruct (Qeq_bool twr 0), (Qltb twr (3 # 2)), (Qltb 4 twr); reflexivity.
Qed.

Example suggested_changes_empty_grid :
  let s := GridSpecifications_init 0 None None None None in
  calculate_total_thrust s = Ok 0 /\
  _calculate_efficiency_score s = Ok (0 : Q) /\
  _generate_suggested_changes s = Ok [ "Add thrusters to begin analysis" ].
Proof. repeat split. Qed.

Example suggested_changes_scenario :
  _generate_suggested_changes scenario_grid
  = Ok [ "Consider reducing thrust for better efficiency";
         "Increase ion/hydrogen thrusters for space operations" ].
Proof. reflexivity. Qed.

Example suggested_changes_zero_gravity :
  _generate_suggested_changes weightless_grid = Raise ZeroDivisionError /\
  suggestedChanges weightless_grid = Raise ZeroDivisionError.
Proof. split; reflexivity. Qed.

(** C7. With zero total thrust the advice is the single message
    "Add thrusters to begin analysis".  Otherwise, on the inputs of the data
    model (non-negative mass and counts), the advice is built by the rules
    in their fixed order: the message drawn from the ratio (ratio 0, below
    1.5, above 4, or none), then the atmospheric message when atmospheric
    thrust is below mass*gravity, then the space message when ion plus
    hydrogen thrust is below mass*gravity. *)
Theorem suggested_changes_rules (s : GridSpecifications) :
  (totalThrust s = 0 ->
   _generate_suggested_changes s = Ok [ "Add thrusters to begin analysis" ]) /\
  ((0 <= mass s)%Q -> counts_non_negative s ->
   _generate_suggested_changes s = suggestedChanges s) /\
  ((0 <= mass s)%Q -> counts_non_negative s -> totalThrust s <> 0 ->
   forall twr, thrustToWeightRatio s = Ok twr ->
   _generate_suggested_changes s
   = Ok ((if Qeq_bool twr 0
          then [ "Add mass and thrusters to calculate thrust-to-weight ratio" ]
          else if Qltb twr (3 # 2)
          then [ "Add more thrusters to improve lift capacity" ]
          else if Qltb 4 twr
          then [ "Consider reducing thrust for better efficiency" ]
          else [])
         ++ (if Qltb (inject_Z (atmosphericThrust s)) (mass s * gravity s)
             then [ "Increase atmospheric thrusters for better planet performance" ]
             else [])
         ++ (if Qltb (inject_Z (ionThrust s + hydrogenThrust s)) (mass s * gravity s)
             then [ "Increase ion/hydrogen thrusters for space operations" ]
             else []))%list).
Proof.
  split; [ apply suggested_changes_no_thrust | split ].
  - apply suggested_changes_refines.
  - intros Hm Hc Ht twr Htwr.
    rewrite (suggested_changes_refines s Hm Hc). unfold suggestedChanges.
    apply Z.eqb_neq in Ht. rewrite Ht, Htwr. reflexivity.
Qed.

Lemma suggested_changes_rules_witness :
  _generate_suggested_changes
    (GridSpecifications_init 0 None None None None)
  = Ok [ "Add thrusters to begin analysis" ] /\
  _generate_suggested_changes scenario_grid = suggestedChanges scenario_grid /\
  _generate_suggested_changes scenario_grid
  = Ok [ "Consider reducing thrust for better efficiency";
         "Increase ion/hydrogen thrusters for space operations" ].
Proof.
  split; [| split ].
  - apply (proj1 (suggested_changes_rules
                    (GridSpecifications_init 0 None None None None))).
    reflexivity.
  - apply (proj1 (proj2 (suggested_changes_rules scenario_grid))).
    + vm_compute. discriminate.
    + repeat split; vm_compute; discriminate.
  - refine (proj2 (proj2 (suggested_changes_rules scenario_grid)) _ _ _
              (inject_Z 164000 / (1000 * (981 # 100)))%Q _).
    + vm_compute. discriminate.
    + repeat split; vm_compute; discriminate.
    + vm_compute. discriminate.
    + reflexivity.
Defined.

(** ** Thrust balance *)

Lemma verdict_text_injective (v w : Verdict) :
  verdict_text v = verdict_text w -> v = w.
Proof. destruct v, w; simpl; intros H; try reflexivity; discriminate H. Qed.

Lemma all_zero_iff (a i h : Q) :
  forallb (fun v => Qeq_bool v 0) (values (distribution_of a i h)) = true
  <-> (a == 0 /\ i == 0 /\ h == 0)%Q.
Proof.
  cbn [distribution_of values map snd forallb].
  rewrite !andb_true_iff, !Qeq_bool_iff. tauto.
Qed.

Lemma not_all_zero (a i h : Q) :
  ~ (a == 0 /\ i == 0 /\ h == 0)%Q ->
  forallb (fun v => Qeq_bool v 0) (values (distribution_of a i h)) = false.
Proof.
  intros H. destruct (forallb _ _) eqn:E; [| reflexivity ].
  apply all_zero_iff in E. contradiction.
Qed.

(** C8. All three percentages 0 gives NoThrusters; otherwise the first type
    above 60, in the order atmospheric, ion, hydrogen, gives its Heavy
    verdict; otherwise Balanced.  70/20/10 is AtmosphericHeavy, 0/0/0 is
    NoThrusters and 34/33/33 is Balanced. *)
Theorem thrust_balance_verdict (a i h : Q) :
  let verdict := _analyze_thrust_balance (distribution_of a i h) in
  let some_thrust := ~ (a == 0 /\ i == 0 /\ h == 0)%Q in
  ((a == 0 /\ i == 0 /\ h == 0)%Q -> verdict = Ok (verdict_text NoThrusters)) /\
  (some_thrust -> (60 < a)%Q -> verdict = Ok (verdict_text AtmosphericHeavy)) /\
  (some_thrust -> (a <= 60)%Q -> (60 < i)%Q ->
   verdict = Ok (verdict_text IonHeavy)) /\
  (some_thrust -> (a <= 60)%Q -> (i <= 60)%Q -> (60 < h)%Q ->
   verdict = Ok (verdict_text HydrogenHeavy)) /\
  (some_thrust -> (a <= 60)%Q -> (i <= 60)%Q -> (h <= 60)%Q ->
   verdict = Ok (verdict_text Balanced)) /\
  _analyze_thrust_balance (distribution_of 70 20 10)
  = Ok (verdict_text AtmosphericHeavy) /\
  _analyze_thrust_balance (distribution_of 0 0 0)
  = Ok (verdict_text NoThrusters) /\
  _analyze_thrust_balance (distribution_of 34 33 33)
  = Ok (verdict_text Balanced).
Proof.
  cbv zeta. unfold _analyze_thrust_balance.
  repeat split; try reflexivity.
  - intros H. apply all_zero_iff in H. now rewrite H.
  - intros Hn Ha. rewrite (not_all_zero _ _ _ Hn). cbn.
    apply Qltb_lt in Ha. now rewrite Ha.
  - intros Hn Ha Hi. rewrite (not_all_zero _ _ _ Hn). cbn.
    apply Qltb_ge in Ha. apply Qltb_lt in Hi. now rewrite Ha, Hi.
  - intros Hn Ha Hi Hh. rewrite (not_all_zero _ _ _ Hn). cbn.
    apply Qltb_ge in Ha, Hi. apply Qltb_lt in Hh. now rewrite Ha, Hi, Hh.
  - intros Hn Ha Hi Hh. rewrite (not_all_zero _ _ _ Hn). cbn.
    apply Qltb_ge in Ha, Hi, Hh. now rewrite Ha, Hi, Hh.
Qed.

Lemma thrust_balance_verdict_witness :
  _analyze_thrust_balance (distribution_of 0 0 0)
  = Ok (verdict_text NoThrusters) /\
  _analyze_thrust_balance (distribution_of 70 20 10)
  = Ok (verdict_text AtmosphericHeavy) /\
  _analyze_thrust_balance (distribution_of 10 80 10)
  = Ok (verdict_text IonHeavy) /\
  _analyze_thrust_balance (distribution_of 60 (1 # 2) (79 # 2))
  = Ok (verdict_text Balanced).
Proof.
  split; [| split; [| split ] ].
  - refine (proj1 (thrust_balance_verdict 0 0 0) _).
    repeat split.
  - refine (proj1 (proj2 (thrust_balance_verdict 70 20 10)) _ _).
    + intros (H & _). discriminate H.
    + reflexivity.
  - refine (proj1 (proj2 (proj2 (thrust_balance_verdict 10 80 10))) _ _ _).
    + intros (H & _). discriminate H.
    + vm_compute. discriminate.
    + reflexivity.
  - refine (proj1 (proj2 (proj2 (proj2 (proj2
              (thrust_balance_verdict 60 (1 # 2) (79 # 2)))))) _ _ _ _).
    + intros (H & _). discriminate H.
    + vm_compute. discriminate.
    + vm_compute. discriminate.
    + vm_compute. discriminate.
Defined.

(** ** The thrust-to-weight ratio at zero mass *)

Lemma calculate_lift_capacity_ok (s : GridSpecifications) :
  ~ (gravity s == 0)%Q ->
  calculate_lift_capacity s
  = Ok ((inject_Z (totalThrust s) - mass s * gravity s) / gravity s)%Q.
Proof.
  intros H. unfold calculate_lift_capacity.
  rewrite calculate_total_thrust_eq. cbn [bind]. now apply py_div_ok.
Qed.

Lemma zero_mass_weight (s : GridSpecifications) :
  (mass s == 0)%Q -> (mass s * gravity s == 0)%Q.
Proof. intros H. rewrite H. apply Qmult_0_l. Qed.

(** C5: where the source guards the ratio ([analyze_grid],
    [_generate_suggested_changes]) a zero mass gives 0; the export of
    [utils.py] computes the same ratio without the guard and raises
    [ZeroDivisionError] on every grid of zero mass and positive gravity. *)
Theorem export_ratio_raises_at_zero_mass
    (py_format : Q -> string -> string) (str_float : Q -> string)
    (str_int : Z -> string) (s : GridSpecifications) :
  (mass s == 0)%Q -> (0 < gravity s)%Q ->
  guarded_twr s (totalThrust s) = Ok (0 : Q) /\
  thrustToWeightRatio s = Ok (0 : Q) /\
  unguarded_twr s (totalThrust s) = Raise ZeroDivisionError /\
  export_grid_to_csv py_format str_float str_int s = Raise ZeroDivisionError.
Proof.
  intros Hm Hg.
  assert (Hu : unguarded_twr s (totalThrust s) = Raise ZeroDivisionError)
    by (apply py_div_zero, zero_mass_weight, Hm).
  repeat split.
  - unfold guarded_twr.
    replace (Qltb 0 (mass s)) with false; [ reflexivity |].
    symmetry. apply Qltb_ge. rewrite Hm. discriminate.
  - unfold thrustToWeightRatio. apply Qeq_bool_iff in Hm. now rewrite Hm.
  - exact Hu.
  - unfold export_grid_to_csv.
    rewrite calculate_thrust_by_type_eq, calculate_total_thrust_eq.
    rewrite calculate_lift_capacity_ok
      by (intros E; rewrite E in Hg; discriminate Hg).
    cbn [bind]. rewrite Hu. reflexivity.
Qed.

Lemma export_ratio_raises_at_zero_mass_witness :
  export_grid_to_csv (fun _ _ => "") (fun _ => "") (fun _ => "")
    (mkGridSpecifications 0 (981 # 100) (mkThrusterCount 2 0)
       ThrusterCount_default ThrusterCount_default)
  = Raise ZeroDivisionError.
Proof.
  apply (export_ratio_raises_at_zero_mass (fun _ _ => "") (fun _ => "")
           (fun _ => "")
           (mkGridSpecifications 0 (981 # 100) (mkThrusterCount 2 0)
              ThrusterCount_default ThrusterCount_default));
    reflexivity.
Defined.

Example export_scenario_rows :
  export_grid_to_csv (fun _ _ => "n") (fun _ => "f") (fun _ => "i")
    scenario_grid
  = Ok [ [ "Space Engineers Grid Specifications" ]; [];
         [ "Basic Specifications" ]; [ "Mass (kg)"; "f" ];
         [ "Gravity (m/s²)"; "f" ]; [];
         [ "Thruster Configuration" ]; [ "Type"; "Small"; "Large" ];
         [ "Atmospheric"; "i"; "i" ]; [ "Ion"; "i"; "i" ];
         [ "Hydrogen"; "i"; "i" ]; [];
         [ "Performance Analysis" ]; [ "Total Thrust (N)"; "n" ];
         [ "Atmospheric Thrust (N)"; "n" ]; [ "Ion Thrust (N)"; "n" ];
         [ "Hydrogen Thrust (N)"; "n" ];
         [ "Required Hover Thrust (N)"; "n" ]; [ "Lift Capacity (kg)"; "n" ];
         [ "Thrust-to-Weight Ratio"; "n" ] ].
Proof. reflexivity. Qed.

(** ** The advisory boundary *)

Lemma split_blank_lines_step (c1 c2 : ascii) (s2 : string) :
  split_blank_lines (String c1 (String c2 s2))
  = if is_LF c1 && is_LF c2 then "" :: split_blank_lines s2
    else push_front c1 (split_blank_lines (String c2 s2)).
Proof. reflexivity. Qed.

Lemma split_blank_lines_not_empty (s : string) : split_blank_lines s <> [].
Proof.
  assert (G : forall t, split_blank_lines t <> [] /\
                        forall c, split_blank_lines (String c t) <> []).
  { induction t as [| c2 t [IH1 IH2]].
    - split; [ discriminate | intros c; discriminate ].
    - split; [ apply IH2 |].
      intros c. simpl. destruct (is_LF c && is_LF c2); [ discriminate |].
      specialize (IH2 c2). simpl in IH2.
      destruct t as [| c3 t']; [ discriminate |].
      destruct (is_LF c2 && is_LF c3).
      + discriminate.
      + destruct (push_front c2 _) eqn:E; [ contradiction | discriminate ]. }
  apply G.
Qed.

Lemma join_push_front (c : ascii) (segments : list string) :
  segments <> [] ->
  join_blank_lines (push_front c segments)
  = String c (join_blank_lines segments).
Proof.
  destruct segments as [| seg rest]; [ contradiction |].
  intros _. simpl. destruct rest; reflexivity.
Qed.

Lemma join_cons (seg : string) (rest : list string) :
  rest <> [] ->
  join_blank_lines (seg :: rest) = seg ++ NL ++ NL ++ join_blank_lines rest.
Proof. destruct rest; [ contradiction | reflexivity ]. Qed.

(** Joining the segments by blank lines gives the text back: the segments
    are exactly the pieces between the separators. *)
Lemma join_split_blank_lines (s : string) :
  join_blank_lines (split_blank_lines s) = s.
Proof.
  assert (G : forall t, join_blank_lines (split_blank_lines t) = t /\
                        forall c, join_blank_lines (split_blank_lines (String c t))
                                  = String c t).
  { induction t as [| c2 t [IH1 IH2]].
    - split; [ reflexivity | intros c; reflexivity ].
    - split; [ apply IH2 |].
      intros c. rewrite split_blank_lines_step.
      destruct (is_LF c && is_LF c2) eqn:E.
      + apply andb_true_iff in E as [E1 E2].
        apply Ascii.eqb_eq in E1, E2. subst c c2.
        rewrite join_cons by apply split_blank_lines_not_empty.
        rewrite IH1. reflexivity.
      + rewrite join_push_front by apply split_blank_lines_not_empty.
        f_equal. apply IH2. }
  apply G.
Qed.

Lemma nth_or_placeholder (k : nat) (segments : list string) (placeholder : string) :
  (if (k <? length segments)%nat then nth k segments "" else placeholder)
  = match nth_error segments k with
    | Some seg => seg
    | None => placeholder
    end.
Proof.
  revert k. induction segments as [| seg rest IH]; intros k.
  - destruct k; reflexivity.
  - destruct k as [| k]; [ reflexivity |]. apply (IH k).
Qed.

Example split_examples :
  split_blank_lines ("a" ++ NL ++ NL ++ "b" ++ NL ++ NL ++ "c" ++ NL ++ NL ++ "d")
  = [ "a"; "b"; "c"; "d" ] /\
  split_blank_lines ("a" ++ NL ++ NL ++ NL ++ "b") = [ "a"; NL ++ "b" ] /\
  split_blank_lines "" = [ "" ] /\
  split_blank_lines ("one" ++ NL ++ "line") = [ "one" ++ NL ++ "line" ].
Proof. repeat split. Qed.

(** C4, as stated, fails twice.  Under zero gravity the call raises past its
    boundary, before the service is reached; and when the service fails,
    only the efficiency field carries the error description: the other two
    hold the fixed text "Analysis unavailable". *)
Lemma analyze_grid_boundary_fails :
  analyze_grid blank_format failing_service weightless_grid
  = Raise ZeroDivisionError /\
  exists answer,
    analyze_grid blank_format failing_service scenario_grid = Ok answer /\
    getitem answer "optimization" = Ok "Analysis unavailable" /\
    getitem answer "use_cases" = Ok "Analysis unavailable" /\
    is_infix "Connection timed out" "Analysis unavailable" = false.
Proof.
  split; [ reflexivity |].
  eexists. split; [ reflexivity |]. repeat split.
Qed.

Section AdvisoryBoundary.

Variable py_format : Q -> string -> string.
Variable chat_completion : string -> string -> result string.

(** C4, amended. With non-zero gravity [analyze_grid] never raises: it
    returns the three fields.  When the service call fails, [efficiency]
    is "Error analyzing efficiency: " followed by the error description
    and the other two fields are "Analysis unavailable".  When it
    succeeds, the fields are the first three blank-line-separated segments
    of the response, in order, with "No optimization suggestions" and
    "No use case analysis" for a missing second and third segment. *)
Theorem analyze_grid_boundary (s : GridSpecifications) :
  ~ (gravity s == 0)%Q ->
  exists prompt,
    analyze_grid py_format chat_completion s
    = Ok (match chat_completion system_prompt prompt with
          | Raise e =>
              [ ("efficiency", "Error analyzing efficiency: " ++ str_exn e);
                ("optimization", "Analysis unavailable");
                ("use_cases", "Analysis unavailable") ]
          | Ok analysis =>
              [ ("efficiency", segment_or 0 "Analysis unavailable" analysis);
                ("optimization",
                 segment_or 1 "No optimization suggestions" analysis);
                ("use_cases", segment_or 2 "No use case analysis" analysis) ]
          end).
Proof.
  intros Hg. unfold analyze_grid.
  rewrite calculate_thrust_by_type_eq, calculate_total_thrust_eq.
  rewrite (calculate_lift_capacity_ok s Hg). cbn [bind].
  assert (Ht : exists twr, guarded_twr s (totalThrust s) = Ok twr).
  { unfold guarded_twr. destruct (Qltb 0 (mass s)) eqn:E.
    - eexists. apply py_div_ok. apply weight_nonzero; [| assumption ].
      apply Qltb_lt in E. intros Hz. rewrite Hz in E. discriminate E.
    - eexists. reflexivity. }
  destruct Ht as [twr ->]. cbn [bind].
  destruct (getitem_thrusts (atmosphericThrust s) (ionThrust s)
              (hydrogenThrust s)) as (Ga & Gi & Gh).
  cbv zeta in Ga, Gi, Gh. rewrite Ga, Gi, Gh. cbn [bind].
  match goal with
  | |- context [chat_completion system_prompt ?p] =>
      exists p; destruct (chat_completion system_prompt p) as [analysis | e]
  end; cbn [bind try_except].
  - unfold segment_or. rewrite <- !nth_or_placeholder. reflexivity.
  - reflexivity.
Qed.

End AdvisoryBoundary.

Lemma analyze_grid_boundary_witness :
  exists answer,
    analyze_grid blank_format failing_service scenario_grid = Ok answer /\
    getitem answer "efficiency"
    = Ok "Error analyzing efficiency: Connection timed out".
Proof.
  destruct (analyze_grid_boundary blank_format failing_service scenario_grid)
    as [prompt E].
  - vm_compute. discriminate.
  - eexists. split; [ exact E | reflexivity ].
Defined.


(** * Further properties of the code *)

(** ** Dicts *)

Lemma getitem_missing {V : Type} (d : dict V) (k : string) :
  contains d k = false -> getitem d k = Raise (KeyError k).
Proof.
  induction d as [| [k' v] d IH]; simpl; [ reflexivity |].
  destruct (String.eqb k' k); [ discriminate | exact IH ].
Qed.

Lemma getitem_present {V : Type} (d : dict V) (k : string) :
  contains d k = true -> exists v, getitem d k = Ok v.
Proof.
  induction d as [| [k' v] d IH]; simpl; [ discriminate |].
  destruct (String.eqb k' k); [ intros _; now exists v | exact IH ].
Qed.

Lemma getitem_setitem_same {V : Type} (d : dict V) (k : string) (v : V) :
  getitem (setitem d k v) k = Ok v.
Proof.
  induction d as [| [k' v'] d IH]; simpl.
  - now rewrite String.eqb_refl.
  - destruct (String.eqb k' k) eqn:E; simpl; rewrite E; [ reflexivity | exact IH ].
Qed.

Lemma getitem_setitem_other {V : Type} (d : dict V) (k k' : string) (v : V) :
  k' <> k -> getitem (setitem d k v) k' = getitem d k'.
Proof.
  intros Hk. induction d as [| [k0 v0] d IH]; simpl.
  - apply String.eqb_neq in Hk. rewrite String.eqb_sym. now rewrite Hk.
  - destruct (String.eqb k0 k) eqn:E; simpl.
    + apply String.eqb_eq in E. subst k0.
      replace (String.eqb k k') with false; [ reflexivity |].
      symmetry. apply String.eqb_neq. congruence.
    + destruct (String.eqb k0 k'); [ reflexivity | exact IH ].
Qed.

Lemma contains_setitem_same {V : Type} (d : dict V) (k : string) (v : V) :
  contains (setitem d k v) k = true.
Proof.
  unfold contains. induction d as [| [k' v'] d IH]; simpl.
  - now rewrite String.eqb_refl.
  - destruct (String.eqb k' k) eqn:E; simpl; rewrite E; [ reflexivity | exact IH ].
Qed.

Lemma contains_setitem_other {V : Type} (d : dict V) (k k' : string) (v : V) :
  k' <> k -> contains (setitem d k v) k' = contains d k'.
Proof.
  intros Hk. unfold contains. induction d as [| [k0 v0] d IH]; simpl.
  - apply String.eqb_neq in Hk. rewrite String.eqb_sym, Hk. reflexivity.
  - destruct (String.eqb k0 k) eqn:E; simpl.
    + reflexivity.
    + now rewrite IH.
Qed.

(** ** The thrust table *)

(** X1. [calculate_thrust] and [get_thrust_tooltip] return a value for the
    three propulsion types of the table and for no other: any other type
    raises [KeyError] carrying the requested type. *)
Theorem thrust_lookup_known_types
    (py_format : Q -> string -> string) (tc : ThrusterCount) (ty : string) :
  (ty = "atmospheric" \/ ty = "ion" \/ ty = "hydrogen" ->
   exists v t, calculate_thrust tc ty = Ok v /\
               get_thrust_tooltip py_format ty = Ok t) /\
  (ty <> "atmospheric" -> ty <> "ion" -> ty <> "hydrogen" ->
   calculate_thrust tc ty = Raise (KeyError ty) /\
   get_thrust_tooltip py_format ty = Raise (KeyError ty)).
Proof.
  split.
  - intros [-> | [-> | ->]]; do 2 eexists; split; reflexivity.
  - intros Ha Hi Hh.
    apply String.eqb_neq in Ha, Hi, Hh.
    rewrite String.eqb_sym in Ha, Hi, Hh.
    unfold calculate_thrust, get_thrust_tooltip, THRUSTER_SPECS.
    cbn [getitem]. rewrite Ha, Hi, Hh. split; reflexivity.
Qed.

Lemma thrust_lookup_known_types_witness :
  (exists v t, calculate_thrust (mkThrusterCount 3 1) "ion" = Ok v /\
               get_thrust_tooltip blank_format "ion" = Ok t) /\
  calculate_thrust (mkThrusterCount 3 1) "plasma" = Raise (KeyError "plasma").
Proof.
  split.
  - refine (proj1 (thrust_lookup_known_types blank_format
                     (mkThrusterCount 3 1) "ion") _).
    right. left. reflexivity.
  - refine (proj1 (proj2 (thrust_lookup_known_types blank_format
                            (mkThrusterCount 3 1) "plasma") _ _ _));
      discriminate.
Defined.

Lemma thrust_values_expanded (s : GridSpecifications) :
  atmosphericThrust s
  = small (atmospheric_thrusters s) * 82000
    + large (atmospheric_thrusters s) * 408000 /\
  ionThrust s
  = small (ion_thrusters s) * 14400 + large (ion_thrusters s) * 172800 /\
  hydrogenThrust s
  = small (hydrogen_thrusters s) * 98400
    + large (hydrogen_thrusters s) * 478800.
Proof. repeat split. Qed.

(** X2. For non-negative counts the total thrust is 0 exactly when all six
    counts are 0: the zero-thrust guards of the assistant fire on the empty
    grid and on no other. *)
Theorem total_thrust_zero_iff_no_thrusters (s : GridSpecifications) :
  counts_non_negative s ->
  (calculate_total_thrust s = Ok 0 <->
   atmospheric_thrusters s = mkThrusterCount 0 0 /\
   ion_thrusters s = mkThrusterCount 0 0 /\
   hydrogen_thrusters s = mkThrusterCount 0 0).
Proof.
  intros Hc. rewrite calculate_total_thrust_eq.
  destruct (thrust_values_expanded s) as (Ea & Ei & Eh).
  unfold totalThrust. rewrite Ea, Ei, Eh.
  destruct s as [m g [a1 a2] [i1 i2] [h1 h2]].
  unfold counts_non_negative in Hc. cbn in *.
  split.
  - intros H. injection H as H.
    assert (a1 = 0 /\ a2 = 0 /\ i1 = 0 /\ i2 = 0 /\ h1 = 0 /\ h2 = 0) by lia.
    destruct H0 as (-> & -> & -> & -> & -> & ->). repeat split.
  - intros (Ha & Hi & Hh).
    injection Ha as -> ->. injection Hi as -> ->. injection Hh as -> ->.
    reflexivity.
Qed.

Lemma total_thrust_zero_iff_no_thrusters_witness :
  calculate_total_thrust (GridSpecifications_init 500 None None None None)
  = Ok 0.
Proof.
  refine (proj2 (total_thrust_zero_iff_no_thrusters
                   (GridSpecifications_init 500 None None None None) _) _).
  - repeat split; vm_compute; discriminate.
  - split; [| split ]; reflexivity.
Defined.

(** ** Ratios *)

Lemma ratio_le_iff (t w c : Q) :
  (0 < w)%Q -> ((t / w <= c)%Q <-> (t <= c * w)%Q).
Proof.
  intros Hw. split; intros H.
  - apply Qnot_lt_le. intros Hlt.
    apply (Qlt_shift_div_l _ _ _ Hw) in Hlt. lra.
  - now apply Qle_shift_div_r.
Qed.

Lemma ratio_ge_iff (t w c : Q) :
  (0 < w)%Q -> ((c <= t / w)%Q <-> (c * w <= t)%Q).
Proof.
  intros Hw. split; intros H.
  - apply Qnot_lt_le. intros Hlt.
    apply (Qlt_shift_div_r _ _ _ Hw) in Hlt. lra.
  - now apply Qle_shift_div_l.
Qed.

Lemma ratio_lt_iff (t w c : Q) :
  (0 < w)%Q -> ((t / w < c)%Q <-> (t < c * w)%Q).
Proof.
  intros Hw. split; intros H.
  - apply Qnot_le_lt. intros Hle. apply (ratio_ge_iff _ _ _ Hw) in Hle. lra.
  - now apply Qlt_shift_div_r.
Qed.

Lemma ratio_gt_iff (t w c : Q) :
  (0 < w)%Q -> ((c < t / w)%Q <-> (c * w < t)%Q).
Proof.
  intros Hw. split; intros H.
  - apply Qnot_le_lt. intros Hle. apply (ratio_le_iff _ _ _ Hw) in Hle. lra.
  - now apply Qlt_shift_div_l.
Qed.

Lemma weight_positive (s : GridSpecifications) :
  (0 < mass s)%Q -> (0 < gravity s)%Q -> (0 < mass s * gravity s)%Q.
Proof. intros Hm Hg. apply Qmult_lt_0_compat; assumption. Qed.

Lemma positive_nonzero (x : Q) : (0 < x)%Q -> ~ (x == 0)%Q.
Proof. intros H E. rewrite E in H. discriminate H. Qed.

Lemma inject_Z_total (s : GridSpecifications) :
  (inject_Z (totalThrust s)
   == inject_Z (atmosphericThrust s) + inject_Z (ionThrust s)
      + inject_Z (hydrogenThrust s))%Q.
Proof. unfold totalThrust. now rewrite !inject_Z_plus. Qed.

Lemma inject_Z_non_negative (z : Z) : 0 <= z -> (0 <= inject_Z z)%Q.
Proof. intros H. unfold Qle. simpl. lia. Qed.

Lemma inject_Z_positive (z : Z) : 0 < z -> (0 < inject_Z z)%Q.
Proof. intros H. unfold Qlt. simpl. lia. Qed.



(** ** The distribution penalty *)

Lemma Qabs_cases (x : Q) :
  ((0 <= x)%Q /\ (Qabs x == x)%Q) \/ ((x <= 0)%Q /\ (Qabs x == - x)%Q).
Proof.
  destruct (Qlt_le_dec x 0) as [H | H].
  - right. split; [ lra | apply Qabs_neg; lra ].
  - left. split; [ assumption | now apply Qabs_pos ].
Qed.

Lemma spread_bounds (a i h t d : Q) :
  (0 <= a)%Q -> (0 <= i)%Q -> (0 <= h)%Q ->
  (t == a + i + h)%Q -> (3 * d == t)%Q ->
  let spread := (0 + Qabs (a - d) + Qabs (i - d) + Qabs (h - d))%Q in
  (0 <= spread)%Q /\ (spread <= 4 * d)%Q /\
  ((i == 0 /\ h == 0) \/ (a == 0 /\ h == 0) \/ (a == 0 /\ i == 0) ->
   4 * d <= spread)%Q.
Proof.
  intros Ha Hi Hh Ht Hd. cbv zeta.
  destruct (Qabs_cases (a - d)) as [[? Ea] | [? Ea]];
    destruct (Qabs_cases (i - d)) as [[? Ei] | [? Ei]];
    destruct (Qabs_cases (h - d)) as [[? Eh] | [? Eh]];
    (split; [ lra | split; [ lra | intros [[? ?] | [[? ?] | [? ?]]]; lra ] ]).
Qed.

(** The penalty of [score_past_guard], as a term of its own. *)
Lemma penalty_bounds (s : GridSpecifications) :
  counts_non_negative s -> 0 < totalThrust s ->
  let total := inject_Z (totalThrust s) in
  let ideal := (total / 3)%Q in
  let penalty :=
    (sumQ [ Qabs (inject_Z (atmosphericThrust s) - ideal)%Q;
            Qabs (inject_Z (ionThrust s) - ideal)%Q;
            Qabs (inject_Z (hydrogenThrust s) - ideal)%Q ]
     / total * 20)%Q in
  (0 <= penalty)%Q /\ (penalty <= 80 # 3)%Q /\
  ((ionThrust s = 0 /\ hydrogenThrust s = 0) \/
   (atmosphericThrust s = 0 /\ hydrogenThrust s = 0) \/
   (atmosphericThrust s = 0 /\ ionThrust s = 0) ->
   (80 # 3 <= penalty)%Q).
Proof.
  intros Hc Ht. cbv zeta.
  destruct (totalThrust_non_negative s Hc) as (Ha & Hi & Hh).
  pose proof (inject_Z_positive _ Ht) as HT.
  assert (Hd : (3 * (inject_Z (totalThrust s) / 3) == inject_Z (totalThrust s))%Q)
    by (field).
  destruct (spread_bounds _ _ _ _ _
              (inject_Z_non_negative _ Ha) (inject_Z_non_negative _ Hi)
              (inject_Z_non_negative _ Hh) (inject_Z_total s) Hd)
    as (L & U & E).
  unfold sumQ. cbn [fold_left].
  set (spread := (0 + _ + _ + _)%Q) in *.
  set (total := inject_Z (totalThrust s)) in *.
  assert (L' : (0 <= spread / total)%Q)
    by (apply (ratio_ge_iff _ _ 0 HT); lra).
  assert (U' : (spread / total <= 4 # 3)%Q)
    by (apply (ratio_le_iff _ _ (4 # 3) HT); lra).
  split; [ lra | split; [ lra |] ].
  intros Hz.
  assert (E' : (4 # 3 <= spread / total)%Q).
  { apply (ratio_ge_iff _ _ (4 # 3) HT).
    assert (4 * (total / 3) <= spread)%Q; [| lra ].
    apply E.
    destruct Hz as [[-> ->] | [[-> ->] | [-> ->]]];
      [ left | right; left | right; right ]; split; reflexivity. }
  lra.
Qed.

(** X4. When the thrust is at least five times the weight (ratio 5 or more)
    the base score is saturated: whatever the distribution of non-negative
    counts, the score is at least 220/3, about 73.3, and at most 100. *)
Theorem efficiency_score_saturated (s : GridSpecifications) :
  counts_non_negative s -> (0 < mass s)%Q -> (0 < gravity s)%Q ->
  0 < totalThrust s ->
  (5 * (mass s * gravity s) <= inject_Z (totalThrust s))%Q ->
  exists v, _calculate_efficiency_score s = Ok v /\
            (220 # 3 <= v)%Q /\ (v <= 100)%Q.
Proof.
  intros Hc Hm Hg Ht H5.
  pose proof (weight_positive s Hm Hg) as Hw.
  exists (score_past_guard s).
  split; [ apply efficiency_score_past_guard; auto using positive_nonzero |].
  destruct (penalty_bounds s Hc Ht) as (L & U & _). cbv zeta in L, U.
  unfold score_past_guard. cbv zeta.
  set (penalty := (sumQ _ / _ * 20)%Q) in *.
  assert (H : (5 <= inject_Z (totalThrust s) / (mass s * gravity s))%Q)
    by (now apply (ratio_ge_iff _ _ 5 Hw)).
  set (twr := (inject_Z (totalThrust s) / (mass s * gravity s))%Q) in *.
  py_minmax_cases; split; lra.
Qed.

Lemma efficiency_score_saturated_witness :
  exists v, _calculate_efficiency_score scenario_grid = Ok v /\
            (220 # 3 <= v)%Q /\ (v <= 100)%Q.
Proof.
  apply (efficiency_score_saturated scenario_grid);
    try reflexivity.
  - repeat split; vm_compute; discriminate.
  - vm_compute. discriminate.
Defined.



(** ** Advice *)

Lemma ratio_of_positive_mass (s : GridSpecifications) :
  (0 < mass s)%Q -> (0 < gravity s)%Q ->
  thrustToWeightRatio s
  = Ok (inject_Z (totalThrust s) / (mass s * gravity s))%Q.
Proof.
  intros Hm Hg. unfold thrustToWeightRatio.
  replace (Qeq_bool (mass s) 0) with false
    by (symmetry; apply Qeq_bool_false, positive_nonzero, Hm).
  apply py_div_ok, positive_nonzero, weight_positive; assumption.
Qed.

(** X6. A grid whose thrust is positive but below its weight, with positive
    mass and gravity and non-negative counts, gets all three kinds of
    advice, in this order: more thrusters, more atmospheric thrusters, more
    ion/hydrogen thrusters. *)
Theorem suggested_changes_underpowered (s : GridSpecifications) :
  counts_non_negative s -> (0 < mass s)%Q -> (0 < gravity s)%Q ->
  0 < totalThrust s ->
  (inject_Z (totalThrust s) < mass s * gravity s)%Q ->
  _generate_suggested_changes s
  = Ok [ "Add more thrusters to improve lift capacity";
         "Increase atmospheric thrusters for better planet performance";
         "Increase ion/hydrogen thrusters for space operations" ].
Proof.
  intros Hc Hm Hg Ht Hlow.
  pose proof (weight_positive s Hm Hg) as Hw.
  destruct (totalThrust_non_negative s Hc) as (Ha & Hi & Hh).
  pose proof (inject_Z_total s) as HT.
  apply inject_Z_non_negative in Ha, Hi, Hh.
  rewrite suggested_changes_refines by (auto; lra).
  unfold suggestedChanges.
  replace (totalThrust s =? 0) with false by (symmetry; apply Z.eqb_neq; lia).
  rewrite (ratio_of_positive_mass s Hm Hg). cbn [bind]. unfold twr_advice.
  set (twr := (inject_Z (totalThrust s) / (mass s * gravity s))%Q).
  assert (H0 : (0 < twr)%Q)
    by (apply (ratio_gt_iff _ _ 0 Hw); pose proof (inject_Z_positive _ Ht); lra).
  assert (H1 : (twr < 1)%Q) by (apply (ratio_lt_iff _ _ 1 Hw); lra).
  replace (Qeq_bool twr 0) with false
    by (symmetry; apply Qeq_bool_false, positive_nonzero, H0).
  replace (Qltb twr (3 # 2)) with true by (symmetry; apply Qltb_lt; lra).
  replace (Qltb (inject_Z (atmosphericThrust s)) (mass s * gravity s)) with true
    by (symmetry; apply Qltb_lt; lra).
  replace (Qltb (inject_Z (ionThrust s + hydrogenThrust s)) (mass s * gravity s))
    with true
    by (symmetry; apply Qltb_lt; rewrite inject_Z_plus; lra).
  reflexivity.
Qed.

Lemma suggested_changes_underpowered_witness :
  _generate_suggested_changes
    (mkGridSpecifications 100000 (981 # 100) (mkThrusterCount 2 0)
       (mkThrusterCount 1 0) ThrusterCount_default)
  = Ok [ "Add more thrusters to improve lift capacity";
         "Increase atmospheric thrusters for better planet performance";
         "Increase ion/hydrogen thrusters for space operations" ].
Proof.
  apply (suggested_changes_underpowered
           (mkGridSpecifications 100000 (981 # 100) (mkThrusterCount 2 0)
              (mkThrusterCount 1 0) ThrusterCount_default));
    try reflexivity.
  repeat split; vm_compute; discriminate.
Defined.

(** X7. With zero mass and some thrust the only advice is to add mass and
    thrusters, for every gravity, zero gravity included: nothing is divided
    and nothing raises. *)
Theorem suggested_changes_massless (s : GridSpecifications) :
  (mass s == 0)%Q -> totalThrust s <> 0 ->
  _generate_suggested_changes s
  = Ok [ "Add mass and thrusters to calculate thrust-to-weight ratio" ].
Proof.
  intros Hm Ht. unfold _generate_suggested_changes.
  rewrite calculate_total_thrust_eq. cbn [bind].
  apply Z.eqb_neq in Ht. rewrite Ht. unfold guarded_twr.
  replace (Qltb 0 (mass s)) with false
    by (symmetry; apply Qltb_ge; rewrite Hm; discriminate).
  cbn [bind]. rewrite calculate_thrust_by_type_eq. reflexivity.
Qed.

Lemma suggested_changes_massless_witness :
  _generate_suggested_changes
    (mkGridSpecifications 0 0 (mkThrusterCount 1 0) ThrusterCount_default
       ThrusterCount_default)
  = Ok [ "Add mass and thrusters to calculate thrust-to-weight ratio" ].
Proof.
  apply (suggested_changes_massless
           (mkGridSpecifications 0 0 (mkThrusterCount 1 0)
              ThrusterCount_default ThrusterCount_default)).
  - reflexivity.
  - vm_compute. discriminate.
Defined.

(** X8. For positive mass, gravity and thrust and non-negative counts, no
    advice at all is given exactly when the atmospheric thrusters alone
    carry the weight, the ion and hydrogen thrusters together carry it too,
    and the total thrust is at most four times the weight. *)
Theorem suggested_changes_none_iff (s : GridSpecifications) :
  counts_non_negative s -> (0 < mass s)%Q -> (0 < gravity s)%Q ->
  0 < totalThrust s ->
  (_generate_suggested_changes s = Ok [] <->
   (mass s * gravity s <= inject_Z (atmosphericThrust s))%Q /\
   (mass s * gravity s <= inject_Z (ionThrust s + hydrogenThrust s))%Q /\
   (inject_Z (totalThrust s) <= 4 * (mass s * gravity s))%Q).
Proof.
  intros Hc Hm Hg Ht.
  pose proof (weight_positive s Hm Hg) as Hw.
  pose proof (inject_Z_total s) as HT.
  assert (HS : (inject_Z (ionThrust s + hydrogenThrust s)
                == inject_Z (ionThrust s) + inject_Z (hydrogenThrust s))%Q)
    by (now rewrite inject_Z_plus).
  rewrite suggested_changes_refines by (auto; lra).
  unfold suggestedChanges.
  replace (totalThrust s =? 0) with false by (symmetry; apply Z.eqb_neq; lia).
  rewrite (ratio_of_positive_mass s Hm Hg). cbn [bind]. unfold twr_advice.
  set (twr := (inject_Z (totalThrust s) / (mass s * gravity s))%Q).
  assert (H0 : (0 < twr)%Q)
    by (apply (ratio_gt_iff _ _ 0 Hw); pose proof (inject_Z_positive _ Ht); lra).
  replace (Qeq_bool twr 0) with false
    by (symmetry; apply Qeq_bool_false, positive_nonzero, H0).
  destruct (Qltb twr (3 # 2)) eqn:E1;
    [ apply Qltb_lt, (ratio_lt_iff _ _ _ Hw) in E1
    | apply Qltb_ge, (ratio_ge_iff _ _ _ Hw) in E1 ];
    (destruct (Qltb 4 twr) eqn:E2;
     [ apply Qltb_lt, (ratio_gt_iff _ _ _ Hw) in E2
     | apply Qltb_ge, (ratio_le_iff _ _ _ Hw) in E2 ]);
    (destruct (Qltb (inject_Z (atmosphericThrust s)) (mass s * gravity s)) eqn:E3;
     [ apply Qltb_lt in E3 | apply Qltb_ge in E3 ]);
    (destruct (Qltb (inject_Z (ionThrust s + hydrogenThrust s))
                (mass s * gravity s)) eqn:E4;
     [ apply Qltb_lt in E4 | apply Qltb_ge in E4 ]);
    cbn [app]; (split; [ intros H; try discriminate H | intros (? & ? & ?) ]);
    try (exfalso; lra); try reflexivity; repeat split; assumption.
Qed.

Lemma suggested_changes_none_iff_witness :
  _generate_suggested_changes
    (mkGridSpecifications 10000 (981 # 100) (mkThrusterCount 2 0)
       (mkThrusterCount 0 1) ThrusterCount_default)
  = Ok [].
Proof.
  refine (proj2 (suggested_changes_none_iff
                   (mkGridSpecifications 10000 (981 # 100) (mkThrusterCount 2 0)
                      (mkThrusterCount 0 1) ThrusterCount_default) _ _ _ _) _);
    try reflexivity.
  - repeat split; vm_compute; discriminate.
  - split; [| split ]; vm_compute; discriminate.
Defined.

(** ** suggest_improvements *)

Lemma analyze_balance_defined (a i h : Q) :
  exists v, _analyze_thrust_balance (distribution_of a i h)
            = Ok (verdict_text v).
Proof.
  unfold _analyze_thrust_balance.
  destruct (forallb _ _); [ now exists NoThrusters |].
  cbn [distribution_of getitem String.eqb Ascii.eqb Bool.eqb bind].
  destruct (Qltb 60 a); [ now exists AtmosphericHeavy |].
  destruct (Qltb 60 i); [ now exists IonHeavy |].
  destruct (Qltb 60 h); [ now exists HydrogenHeavy | now exists Balanced ].
Qed.

(** The dict comprehension of [suggest_improvements], past the zero guard. *)
Lemma distribution_defined (s : GridSpecifications) :
  totalThrust s <> 0 ->
  exists a i h,
    map_result
      (fun kv : string * Z =>
         if 0 <? totalThrust s
         then q <- py_div (inject_Z (snd kv)) (inject_Z (totalThrust s)) ;;
              Ok (fst kv, (q * 100)%Q)
         else Ok (fst kv, (0 : Q)))
      [ ("atmospheric", atmosphericThrust s); ("ion", ionThrust s);
        ("hydrogen", hydrogenThrust s) ]
    = Ok (distribution_of a i h) /\
    (0 < totalThrust s ->
     a = (inject_Z (atmosphericThrust s) / inject_Z (totalThrust s) * 100)%Q /\
     i = (inject_Z (ionThrust s) / inject_Z (totalThrust s) * 100)%Q /\
     h = (inject_Z (hydrogenThrust s) / inject_Z (totalThrust s) * 100)%Q).
Proof.
  intros Ht. cbn [map_result fst snd].
  destruct (0 <? totalThrust s) eqn:E.
  - rewrite !py_div_ok by (apply inject_Z_nonzero, Ht).
    cbn [bind]. do 3 eexists. split; [ reflexivity |].
    intros _. repeat split.
  - cbn [bind]. do 3 eexists. split; [ reflexivity |].
    intros H. apply Z.ltb_lt in H. congruence.
Qed.

Lemma efficiency_score_defined (s : GridSpecifications) :
  (mass s == 0)%Q \/ ~ (gravity s == 0)%Q ->
  exists v, _calculate_efficiency_score s = Ok v.
Proof.
  intros H.
  destruct (Qeq_dec (mass s) 0) as [Hm | Hm];
    [ eexists; apply efficiency_score_degenerate; now right |].
  destruct H as [H | Hg]; [ contradiction |].
  destruct (Z.eq_dec (totalThrust s) 0) as [Ht | Ht];
    [ eexists; apply efficiency_score_degenerate; now left |].
  unfold _calculate_efficiency_score.
  rewrite calculate_total_thrust_eq. cbn [bind].
  apply Z.eqb_neq in Ht as Ht'. rewrite Ht'.
  apply Qeq_bool_false in Hm as Hm'. rewrite Hm'. cbn [orb].
  rewrite (py_div_ok _ _ (weight_nonzero s Hm Hg)). cbn [bind].
  rewrite calculate_thrust_by_type_eq. cbn [bind].
  rewrite (py_div_ok _ 3) by (intros E; discriminate E). cbn [bind].
  destruct (0 <? totalThrust s).
  - rewrite py_div_ok by (apply inject_Z_nonzero, Ht). cbn [bind].
    eexists. reflexivity.
  - cbn [bind]. eexists. reflexivity.
Qed.

Lemma efficiency_score_raises (s : GridSpecifications) :
  totalThrust s <> 0 -> ~ (mass s == 0)%Q -> (gravity s == 0)%Q ->
  _calculate_efficiency_score s = Raise ZeroDivisionError.
Proof.
  intros Ht Hm Hg. unfold _calculate_efficiency_score.
  rewrite calculate_total_thrust_eq. cbn [bind].
  apply Z.eqb_neq in Ht. rewrite Ht.
  apply Qeq_bool_false in Hm. rewrite Hm. cbn [orb].
  rewrite py_div_zero by (rewrite Hg; apply Qmult_0_r). reflexivity.
Qed.

Lemma suggested_changes_defined (s : GridSpecifications) :
  (mass s == 0)%Q \/ ~ (gravity s == 0)%Q ->
  exists l, _generate_suggested_changes s = Ok l.
Proof.
  intros H. unfold _generate_suggested_changes.
  rewrite calculate_total_thrust_eq. cbn [bind].
  destruct (totalThrust s =? 0); [ eexists; reflexivity |].
  assert (G : exists twr, guarded_twr s (totalThrust s) = Ok twr).
  { unfold guarded_twr. destruct (Qltb 0 (mass s)) eqn:E.
    - apply Qltb_lt in E. eexists. apply py_div_ok.
      destruct H as [H | H]; [ rewrite H in E; discriminate E |].
      apply weight_nonzero; [ now apply positive_nonzero | assumption ].
    - eexists. reflexivity. }
  destruct G as [twr ->]. cbn [bind].
  rewrite calculate_thrust_by_type_eq. cbn [bind].
  destruct (getitem_thrusts (atmosphericThrust s) (ionThrust s)
              (hydrogenThrust s)) as (Ga & Gi & Gh).
  cbv zeta in Ga, Gi, Gh. rewrite Ga, Gi, Gh.
  destruct (Qltb 0 (mass s)); cbn [bind]; eexists; reflexivity.
Qed.

(** X9. [suggest_improvements] fails in one situation only: some thrust, a
    non-zero mass and zero gravity, where it raises [ZeroDivisionError].
    With zero total thrust it returns the fixed answer whatever the mass and
    gravity, and with zero mass or non-zero gravity it returns a value. *)
Theorem suggest_improvements_failure (s : GridSpecifications) :
  (totalThrust s = 0 ->
   suggest_improvements s
   = Ok (mkSuggestions "No thrusters configured" 0
           [ "Add thrusters to begin analysis" ])) /\
  (totalThrust s <> 0 -> ~ (mass s == 0)%Q -> (gravity s == 0)%Q ->
   suggest_improvements s = Raise ZeroDivisionError) /\
  (totalThrust s <> 0 -> (mass s == 0)%Q \/ ~ (gravity s == 0)%Q ->
   exists out, suggest_improvements s = Ok out).
Proof.
  unfold suggest_improvements.
  rewrite calculate_thrust_by_type_eq, calculate_total_thrust_eq.
  cbn [bind]. split; [| split ].
  - intros ->. reflexivity.
  - intros Ht Hm Hg. apply Z.eqb_neq in Ht as Ht'. rewrite Ht'.
    destruct (distribution_defined s Ht) as (a & i & h & -> & _).
    cbn [bind]. destruct (analyze_balance_defined a i h) as [v ->].
    cbn [bind]. now rewrite efficiency_score_raises.
  - intros Ht H. apply Z.eqb_neq in Ht as Ht'. rewrite Ht'.
    destruct (distribution_defined s Ht) as (a & i & h & -> & _).
    cbn [bind]. destruct (analyze_balance_defined a i h) as [v ->].
    destruct (efficiency_score_defined s H) as [score ->].
    destruct (suggested_changes_defined s H) as [l ->].
    cbn [bind]. eexists. reflexivity.
Qed.

Lemma suggest_improvements_failure_witness :
  suggest_improvements
    (mkGridSpecifications 1000 0 ThrusterCount_default ThrusterCount_default
       ThrusterCount_default)
  = Ok (mkSuggestions "No thrusters configured" 0
          [ "Add thrusters to begin analysis" ]) /\
  suggest_improvements weightless_grid = Raise ZeroDivisionError /\
  exists out, suggest_improvements scenario_grid = Ok out.
Proof.
  split; [| split ].
  - refine (proj1 (suggest_improvements_failure
                     (mkGridSpecifications 1000 0 ThrusterCount_default
                        ThrusterCount_default ThrusterCount_default)) _).
    reflexivity.
  - refine (proj1 (proj2 (suggest_improvements_failure weightless_grid)) _ _ _).
    + vm_compute. discriminate.
    + vm_compute. discriminate.
    + reflexivity.
  - refine (proj2 (proj2 (suggest_improvements_failure scenario_grid)) _ _).
    + vm_compute. discriminate.
    + right. vm_compute. discriminate.
Defined.

Lemma share_above_60 (t total : Z) :
  0 < total ->
  Qltb 60 (inject_Z t / inject_Z total * 100)%Q = (3 * total <? 5 * t).
Proof.
  intros Ht. pose proof (inject_Z_positive _ Ht) as HT.
  assert (E : (60 < inject_Z t / inject_Z total * 100)%Q <-> 3 * total < 5 * t).
  { rewrite Zlt_Qlt, !inject_Z_mult.
    change (inject_Z 3) with 3%Q. change (inject_Z 5) with 5%Q.
    pose proof (ratio_gt_iff (inject_Z t) (inject_Z total) (3 # 5) HT) as R.
    split; intros H.
    - assert (3 # 5 < inject_Z t / inject_Z total)%Q by lra.
      apply (proj1 R) in H0. lra.
    - assert (3 # 5 < inject_Z t / inject_Z total)%Q by (apply R; lra).
      lra. }
  destruct (Z.ltb_spec (3 * total) (5 * t)) as [H | H].
  - apply Qltb_lt, E, H.
  - apply Qltb_ge. apply Qnot_lt_le. intros C. apply E in C. lia.
Qed.

Lemma share_zero (t total : Z) :
  0 < total ->
  (inject_Z t / inject_Z total * 100 == 0)%Q -> t = 0.
Proof.
  intros Ht E. pose proof (inject_Z_positive _ Ht) as HT.
  assert (L : (inject_Z t / inject_Z total <= 0)%Q) by lra.
  assert (U : (0 <= inject_Z t / inject_Z total)%Q) by lra.
  apply (proj1 (ratio_le_iff _ _ 0 HT)) in L.
  apply (proj1 (ratio_ge_iff _ _ 0 HT)) in U.
  assert (Z0 : (inject_Z t == inject_Z 0)%Q) by (change (inject_Z 0) with 0%Q; lra).
  exact (proj1 (inject_Z_injective t 0) Z0).
Qed.

Lemma balance_of_shares (a i h : Z) :
  0 <= a -> 0 <= i -> 0 <= h -> 0 < a + i + h ->
  let total := inject_Z (a + i + h) in
  _analyze_thrust_balance
    (distribution_of (inject_Z a / total * 100) (inject_Z i / total * 100)
                     (inject_Z h / total * 100))
  = Ok (verdict_text (verdict_of_thrusts a i h)).
Proof.
  intros Ha Hi Hh Ht. cbv zeta. unfold _analyze_thrust_balance.
  rewrite not_all_zero.
  - cbn [distribution_of getitem String.eqb Ascii.eqb Bool.eqb bind].
    rewrite !share_above_60 by assumption.
    unfold verdict_of_thrusts. cbv zeta.
    destruct (3 * (a + i + h) <? 5 * a); [ reflexivity |].
    destruct (3 * (a + i + h) <? 5 * i); [ reflexivity |].
    destruct (3 * (a + i + h) <? 5 * h); reflexivity.
  - intros (Ea & Ei & Eh).
    apply share_zero in Ea, Ei, Eh; try assumption. lia.
Qed.

Lemma verdict_of_thrusts_cases (a i h : Z) :
  0 <= a -> 0 <= i -> 0 <= h ->
  let total := a + i + h in
  (verdict_of_thrusts a i h = AtmosphericHeavy <-> 3 * total < 5 * a) /\
  (verdict_of_thrusts a i h = IonHeavy <-> 3 * total < 5 * i) /\
  (verdict_of_thrusts a i h = HydrogenHeavy <-> 3 * total < 5 * h) /\
  verdict_of_thrusts a i h <> NoThrusters.
Proof.
  intros Ha Hi Hh. cbv zeta. unfold verdict_of_thrusts. cbv zeta.
  destruct (Z.ltb_spec (3 * (a + i + h)) (5 * a));
    destruct (Z.ltb_spec (3 * (a + i + h)) (5 * i));
    destruct (Z.ltb_spec (3 * (a + i + h)) (5 * h));
    repeat split; intros; try discriminate; try reflexivity; try lia.
Qed.

(** X10. In [suggest_improvements], for non-negative counts and positive
    total thrust, the balance verdict is decided by the integer thrusts
    alone: a type is reported heavy exactly when five times its thrust
    exceeds three times the total (a share above 60 percent).  At most one
    type can be heavy, so the order in which the code tests the three types
    does not matter, and "No thrusters configured" is never reported. *)
Theorem suggest_improvements_balance (s : GridSpecifications) :
  counts_non_negative s -> 0 < totalThrust s ->
  (mass s == 0)%Q \/ ~ (gravity s == 0)%Q ->
  exists out,
    suggest_improvements s = Ok out /\
    (thrust_balance out = verdict_text AtmosphericHeavy
     <-> 3 * totalThrust s < 5 * atmosphericThrust s) /\
    (thrust_balance out = verdict_text IonHeavy
     <-> 3 * totalThrust s < 5 * ionThrust s) /\
    (thrust_balance out = verdict_text HydrogenHeavy
     <-> 3 * totalThrust s < 5 * hydrogenThrust s) /\
    thrust_balance out <> verdict_text NoThrusters.
Proof.
  intros Hc Ht H.
  destruct (totalThrust_non_negative s Hc) as (Ha & Hi & Hh).
  assert (Ht0 : totalThrust s <> 0) by lia.
  unfold suggest_improvements.
  rewrite calculate_thrust_by_type_eq, calculate_total_thrust_eq.
  cbn [bind]. apply Z.eqb_neq in Ht0 as Ht'. rewrite Ht'.
  destruct (distribution_defined s Ht0) as (a & i & h & -> & E).
  destruct (E Ht) as (-> & -> & ->). cbn [bind].
  pose proof (balance_of_shares _ _ _ Ha Hi Hh Ht) as B. cbv zeta in B.
  change (atmosphericThrust s + ionThrust s + hydrogenThrust s)
    with (totalThrust s) in B.
  rewrite B.
  destruct (efficiency_score_defined s H) as [score ->].
  destruct (suggested_changes_defined s H) as [l ->].
  cbn [bind]. eexists. split; [ reflexivity |].
  cbn [thrust_balance].
  destruct (verdict_of_thrusts_cases _ _ _ Ha Hi Hh) as (Va & Vi & Vh & Vn).
  cbv zeta in Va, Vi, Vh.
  repeat split; intros G;
    try (apply verdict_text_injective in G);
    try (apply Va in G); try (apply Vi in G); try (apply Vh in G);
    try assumption; try (f_equal; tauto).
Qed.

Lemma suggest_improvements_balance_witness :
  exists out,
    suggest_improvements scenario_grid = Ok out /\
    (thrust_balance out = verdict_text AtmosphericHeavy
     <-> 3 * totalThrust scenario_grid < 5 * atmosphericThrust scenario_grid) /\
    (thrust_balance out = verdict_text IonHeavy
     <-> 3 * totalThrust scenario_grid < 5 * ionThrust scenario_grid) /\
    (thrust_balance out = verdict_text HydrogenHeavy
     <-> 3 * totalThrust scenario_grid < 5 * hydrogenThrust scenario_grid) /\
    thrust_balance out <> verdict_text NoThrusters.
Proof.
  apply (suggest_improvements_balance scenario_grid).
  - repeat split; vm_compute; discriminate.
  - reflexivity.
  - right. vm_compute. discriminate.
Defined.

(** ** Deserialisation *)

(** X11. [GridSpecifications.from_dict] reads the three thruster entries
    with [data[...]]: when one of them is missing it raises, where the
    constructor would have defaulted the field; when the atmospheric entry
    is the missing one the error is [KeyError] on that key. *)
Theorem from_dict_requires_thrusters (data : dict pyval) :
  contains data "atmospheric_thrusters" = false \/
  contains data "ion_thrusters" = false \/
  contains data "hydrogen_thrusters" = false ->
  exists e,
    GridSpecifications_from_dict data = Raise e /\
    (contains data "atmospheric_thrusters" = false ->
     e = KeyError "atmospheric_thrusters").
Proof.
  intros H. unfold GridSpecifications_from_dict.
  destruct (contains data "atmospheric_thrusters") eqn:Ca.
  - destruct (getitem data "atmospheric_thrusters") as [va | e];
      [| exists e; split; [ reflexivity | discriminate ] ].
    cbn [bind].
    destruct (ThrusterCount_from_dict va) as [ta | e];
      [| exists e; split; [ reflexivity | discriminate ] ].
    cbn [bind].
    destruct (contains data "ion_thrusters") eqn:Ci.
    + destruct (getitem data "ion_thrusters") as [vi | e];
        [| exists e; split; [ reflexivity | discriminate ] ].
      cbn [bind].
      destruct (ThrusterCount_from_dict vi) as [ti | e];
        [| exists e; split; [ reflexivity | discriminate ] ].
      cbn [bind].
      destruct H as [H | [H | H]]; try discriminate H.
      rewrite (getitem_missing _ _ H).
      eexists. split; [ reflexivity | discriminate ].
    + rewrite (getitem_missing _ _ Ci).
      eexists. split; [ reflexivity | discriminate ].
  - rewrite (getitem_missing _ _ Ca).
    eexists. split; [ reflexivity | reflexivity ].
Qed.

Lemma from_dict_requires_thrusters_witness :
  exists e,
    GridSpecifications_from_dict
      [ ("mass", PFloat 1000); ("gravity", PFloat (981 # 100));
        ("ion_thrusters", PDict []); ("hydrogen_thrusters", PDict []) ]
    = Raise e /\
    (contains
       [ ("mass", PFloat 1000); ("gravity", PFloat (981 # 100));
         ("ion_thrusters", PDict []); ("hydrogen_thrusters", PDict []) ]
       "atmospheric_thrusters" = false ->
     e = KeyError "atmospheric_thrusters").
Proof.
  apply (from_dict_requires_thrusters
           [ ("mass", PFloat 1000); ("gravity", PFloat (981 # 100));
             ("ion_thrusters", PDict []); ("hydrogen_thrusters", PDict []) ]).
  left. reflexivity.
Defined.

#[local] Arguments String.eqb : simpl nomatch.

(** X12. [GridSpecifications.from_dict] does not ignore an entry it does
    not know: the serialised form of any grid with one more key, which is
    not a field name, is refused with the [TypeError] of an unexpected
    keyword argument. *)
Theorem from_dict_rejects_unknown_key
    (s : GridSpecifications) (k : string) (v : pyval) :
  k <> "mass" -> k <> "gravity" -> k <> "atmospheric_thrusters" ->
  k <> "ion_thrusters" -> k <> "hydrogen_thrusters" ->
  exists msg,
    GridSpecifications_from_dict
      (GridSpecifications_to_dict s ++ [ (k, v) ])%list
    = Raise (TypeError msg).
Proof.
  intros H1 H2 H3 H4 H5.
  apply String.eqb_neq in H1, H2, H3, H4, H5.
  destruct s as [m g [a1 a2] [i1 i2] [h1 h2]].
  unfold GridSpecifications_from_dict, GridSpecifications_to_dict.
  cbn -[append].
  unfold GridSpecifications_kwargs, check_keywords.
  cbn -[append]. rewrite H1, H2, H3, H4, H5. eexists. reflexivity.
Qed.

Lemma from_dict_rejects_unknown_key_witness :
  exists msg,
    GridSpecifications_from_dict
      (GridSpecifications_to_dict scenario_grid ++ [ ("colour", PStr "red") ])%list
    = Raise (TypeError msg).
Proof.
  apply (from_dict_rejects_unknown_key scenario_grid "colour" (PStr "red"));
    discriminate.
Defined.

(** X13. A dict that leaves out what the constructor can default is read
    like the constructor call with the same omissions: without a gravity
    entry the gravity is 9.81, and a thruster entry that is an empty dict
    gives the zero count. *)
Theorem from_dict_defaults_like_constructor
    (m : Q) (a i h : ThrusterCount) :
  GridSpecifications_from_dict
    [ ("mass", PFloat m);
      ("atmospheric_thrusters", PDict (ThrusterCount_to_dict a));
      ("ion_thrusters", PDict (ThrusterCount_to_dict i));
      ("hydrogen_thrusters", PDict (ThrusterCount_to_dict h)) ]
  = Ok (GridSpecifications_init m None (Some a) (Some i) (Some h)) /\
  GridSpecifications_from_dict
    [ ("mass", PFloat m); ("atmospheric_thrusters", PDict []);
      ("ion_thrusters", PDict []); ("hydrogen_thrusters", PDict []) ]
  = Ok (GridSpecifications_init m None None None None) /\
  gravity (GridSpecifications_init m None None None None) = (981 # 100)%Q.
Proof.
  destruct a, i, h. split; [| split ]; reflexivity.
Qed.

(** ** The preset store *)

Lemma keys_setitem {V : Type} (d : dict V) (k : string) (v : V) :
  keys (setitem d k v) = if contains d k then keys d else (keys d ++ [ k ])%list.
Proof.
  unfold keys, contains. induction d as [| [k' v'] d IH]; [ reflexivity |].
  cbn [setitem existsb fst map].
  destruct (String.eqb k' k) eqn:E; cbn [map fst orb].
  - reflexivity.
  - rewrite IH. destruct (existsb _ d); reflexivity.
Qed.

Lemma contains_keys {V : Type} (d : dict V) (k : string) :
  contains d k = true <-> In k (keys d).
Proof.
  unfold contains, keys. rewrite existsb_exists, in_map_iff. split.
  - intros ([k' v] & Hin & E). apply String.eqb_eq in E.
    exists (k', v). split; [ exact E | exact Hin ].
  - intros ([k' v] & E & Hin). exists (k', v).
    split; [ exact Hin | now apply String.eqb_eq ].
Qed.

Lemma setitem_keeps_keys_distinct {V : Type} (d : dict V) (k : string) (v : V) :
  NoDup (keys d) -> NoDup (keys (setitem d k v)).
Proof.
  intros H. rewrite keys_setitem.
  destruct (contains d k) eqn:E; [ exact H |].
  apply NoDup_app; [ exact H | constructor; [ intros [] | constructor ] |].
  intros x Hx [<- | []].
  apply contains_keys in Hx. congruence.
Qed.

Section SessionProperties.

Variable json_text : Type.
Variable json_dumps : pyval -> json_text.
Variable json_loads : json_text -> result pyval.

Hypothesis json_loads_dumps : forall v, json_loads (json_dumps v) = Ok v.

Lemma Preset_round_trip (p : Preset) :
  Preset_load json_text json_loads (Preset_save json_text json_dumps p) = Ok p.
Proof.
  unfold Preset_load, Preset_save. rewrite json_loads_dumps.
  destruct p as [n s]. cbn [bind name specifications getitem].
  cbn [String.eqb Ascii.eqb Bool.eqb bind as_mapping].
  rewrite GridSpecifications_round_trip. reflexivity.
Qed.

Lemma load_after_save (st : option (dict json_text)) (p : Preset) :
  load_preset json_text json_loads (save_preset json_text json_dumps st p)
    (name p) = Ok (Some p).
Proof.
  unfold load_preset, save_preset.
  rewrite contains_setitem_same, getitem_setitem_same. cbn [negb bind].
  now rewrite Preset_round_trip.
Qed.

Lemma load_other_after_save (st : option (dict json_text)) (p : Preset)
    (n : string) :
  n <> name p ->
  load_preset json_text json_loads (save_preset json_text json_dumps st p) n
  = load_preset json_text json_loads st n.
Proof.
  intros Hn. unfold load_preset, save_preset.
  rewrite contains_setitem_other, getitem_setitem_other by assumption.
  destruct st as [d |]; reflexivity.
Qed.

Lemma load_after_other_saves (st : option (dict json_text))
    (ps : list Preset) (n : string) :
  ~ In n (map name ps) ->
  load_preset json_text json_loads (save_all json_dumps st ps) n
  = load_preset json_text json_loads st n.
Proof.
  unfold save_all. revert st.
  induction ps as [| p ps IH]; intros st Hn; [ reflexivity |].
  cbn [fold_left]. rewrite IH by (intros H; apply Hn; now right).
  apply load_other_after_save. intros ->. apply Hn. now left.
Qed.

(** X14. A preset saved in any session is loaded back intact under its
    name, also after any number of later saves under other names; a save
    under the same name before it is overwritten.  This rests on
    [json.loads] inverting [json.dumps]. *)
Theorem load_preset_returns_saved
    (st : option (dict json_text)) (p : Preset) (later : list Preset) :
  ~ In (name p) (map name later) ->
  load_preset json_text json_loads
    (save_all json_dumps (save_preset json_text json_dumps st p) later)
    (name p)
  = Ok (Some p).
Proof.
  intros H. rewrite load_after_other_saves by exact H.
  apply load_after_save.
Qed.

End SessionProperties.

Lemma load_preset_returns_saved_witness :
  load_preset pyval (fun v => Ok v)
    (save_all (fun v => v)
       (save_preset pyval (fun v => v)
          (Some [ ("miner", PStr "stale") ])
          (mkPreset "miner" scenario_grid))
       [ mkPreset "scout" weightless_grid ])
    "miner"
  = Ok (Some (mkPreset "miner" scenario_grid)).
Proof.
  apply (load_preset_returns_saved pyval (fun v => v) (fun v => Ok v)
           (fun v => eq_refl) (Some [ ("miner", PStr "stale") ])
           (mkPreset "miner" scenario_grid)
           [ mkPreset "scout" weightless_grid ]).
  intros [H | []]. discriminate H.
Defined.

(** X15. Loading a name under which nothing was saved returns [None] and
    never fails: saves under other names leave the answer for a name as it
    was, and in a fresh session that answer is [None]. *)
Theorem load_preset_unsaved_name
    (json_text : Type) (json_dumps : pyval -> json_text)
    (json_loads : json_text -> result pyval)
    (st : option (dict json_text)) (ps : list Preset) (n : string) :
  ~ In n (map name ps) ->
  load_preset json_text json_loads (save_all json_dumps st ps) n
  = load_preset json_text json_loads st n /\
  load_preset json_text json_loads (save_all json_dumps None ps) n = Ok None.
Proof.
  intros H. split.
  - now apply load_after_other_saves.
  - now rewrite load_after_other_saves.
Qed.

Lemma load_preset_unsaved_name_witness :
  load_preset pyval (fun v => Ok v)
    (save_all (fun v => v) None
       [ mkPreset "miner" scenario_grid; mkPreset "scout" weightless_grid ])
    "hauler"
  = Ok None.
Proof.
  refine (proj2 (load_preset_unsaved_name pyval (fun v => v) (fun v => Ok v)
                   None
                   [ mkPreset "miner" scenario_grid;
                     mkPreset "scout" weightless_grid ] "hauler" _)).
  intros [H | [H | []]]; discriminate H.
Defined.

Lemma save_all_keys {json_text : Type} (json_dumps : pyval -> json_text)
    (ps : list Preset) (d : dict json_text) :
  NoDup (keys d) ->
  exists d', save_all json_dumps (Some d) ps = Some d' /\
             NoDup (keys d') /\
             forall n, In n (keys d') <-> In n (keys d) \/ In n (map name ps).
Proof.
  unfold save_all. revert d.
  induction ps as [| p ps IH]; intros d Hd.
  - exists d. split; [ reflexivity | split; [ exact Hd |] ].
    intros n. cbn [map In]. tauto.
  - cbn [fold_left save_preset].
    destruct (IH _ (setitem_keeps_keys_distinct d (name p)
                      (Preset_save json_text json_dumps p) Hd))
      as (d' & E & Hn & Hk).
    exists d'. split; [ exact E | split; [ exact Hn |] ].
    intros n. rewrite Hk, keys_setitem. cbn [map In].
    destruct (contains d (name p)) eqn:C.
    + apply contains_keys in C. split; [ tauto |].
      intros [H | [H | H]]; auto. subst n. auto.
    + rewrite in_app_iff. cbn [In]. tauto.
Qed.

(** X16. After any sequence of saves in a fresh session the stored names
    are exactly the names saved, each of them once: saving again under a
    name replaces the entry and adds none. *)
Theorem saved_names_distinct
    (json_text : Type) (json_dumps : pyval -> json_text)
    (p : Preset) (ps : list Preset) :
  exists d,
    save_all json_dumps None (p :: ps) = Some d /\
    NoDup (keys d) /\
    forall n, In n (keys d) <-> In n (map name (p :: ps)).
Proof.
  unfold save_all. cbn [fold_left save_preset setitem].
  destruct (save_all_keys json_dumps ps
              [ (name p, Preset_save json_text json_dumps p) ])
    as (d & E & Hn & Hk).
  - cbn. constructor; [ intros [] | constructor ].
  - exists d. split; [ exact E | split; [ exact Hn |] ].
    intros n. rewrite Hk. cbn. tauto.
Qed.

(** ** The comparison charts *)

Lemma radar_values_raises (s : GridSpecifications) :
  (mass s * gravity s == 0)%Q -> radar_values s = Raise ZeroDivisionError.
Proof.
  intros H. unfold radar_values, unguarded_twr.
  rewrite calculate_total_thrust_eq. cbn [bind].
  destruct (Qeq_dec (gravity s) 0) as [Hg | Hg].
  - unfold calculate_lift_capacity. rewrite calculate_total_thrust_eq.
    cbn [bind]. now rewrite py_div_zero.
  - rewrite (calculate_lift_capacity_ok s Hg). cbn [bind].
    now rewrite py_div_zero.
Qed.

Section ChartProperties.

Variable json_text : Type.
Variable json_dumps : pyval -> json_text.
Variable json_loads : json_text -> result pyval.

Hypothesis json_loads_dumps : forall v, json_loads (json_dumps v) = Ok v.

Lemma Preset_load_saved (p : Preset) :
  Preset_load json_text json_loads (Preset_save json_text json_dumps p) = Ok p.
Proof.
  unfold Preset_load, Preset_save. rewrite json_loads_dumps.
  destruct p as [n s]. cbn [bind name specifications getitem].
  cbn [String.eqb Ascii.eqb Bool.eqb bind as_mapping].
  rewrite GridSpecifications_round_trip. reflexivity.
Qed.

Lemma comparison_loop_saved (ps : list Preset) (data : list ChartRow) :
  comparison_loop json_text json_loads (saved_presets json_dumps ps) data
  = Ok (data ++ flat_map chart_rows ps)%list.
Proof.
  revert data. induction ps as [| p ps IH]; intros data.
  - cbn. now rewrite app_nil_r.
  - cbn [saved_presets map comparison_loop]. rewrite Preset_load_saved.
    cbn [bind]. rewrite calculate_thrust_by_type_eq. cbn [bind].
    destruct (getitem_thrusts (atmosphericThrust (specifications p))
                (ionThrust (specifications p))
                (hydrogenThrust (specifications p))) as (Ga & Gi & Gh).
    cbv zeta in Ga, Gi, Gh. rewrite Ga, Gi, Gh. cbn [bind].
    fold (saved_presets json_dumps ps). rewrite IH.
    cbn [flat_map]. now rewrite <- app_assoc.
Qed.

(** X17. On presets written by [Preset.save] the comparison chart never
    fails, zero mass and zero gravity included: it plots, for each preset in
    the order of the dict, three rows under the preset's name, the
    atmospheric, ion and hydrogen thrust of the grid that was saved.  This
    rests on [json.loads] inverting [json.dumps]. *)
Theorem comparison_chart_rows (ps : list Preset) :
  create_comparison_chart json_text json_loads (saved_presets json_dumps ps)
  = Ok (flat_map chart_rows ps).
Proof.
  unfold create_comparison_chart. now rewrite comparison_loop_saved.
Qed.

Lemma metrics_loop_raises (items : dict json_text) (data : list Trace)
    (n : string) (p : Preset) :
  In (n, Preset_save json_text json_dumps p) items ->
  (mass (specifications p) * gravity (specifications p) == 0)%Q ->
  forall traces, metrics_loop json_text json_loads items data <> Ok traces.
Proof.
  intros Hin Hz. revert data.
  induction items as [| [n' text] items IH]; intros data traces;
    [ destruct Hin |].
  cbn [metrics_loop].
  destruct Hin as [E | Hin].
  - injection E as -> ->. rewrite Preset_load_saved. cbn [bind].
    rewrite (radar_values_raises _ Hz). discriminate.
  - destruct (Preset_load json_text json_loads text) as [q | e];
      [| discriminate ].
    cbn [bind].
    destruct (radar_values (specifications q)) as [radial | e];
      [| discriminate ].
    cbn [bind]. now apply IH.
Qed.

(** X18. One stored preset with zero mass or zero gravity is enough to make
    the metrics chart fail for the whole set of presets: the thrust-to-weight
    ratio is computed there without a guard, so no figure is produced.  This
    rests on [json.loads] inverting [json.dumps]. *)
Theorem metrics_chart_fails_on_degenerate_preset
    (presets : dict json_text) (n : string) (p : Preset) :
  In (n, Preset_save json_text json_dumps p) presets ->
  (mass (specifications p) == 0)%Q \/ (gravity (specifications p) == 0)%Q ->
  forall traces,
    create_metrics_comparison json_text json_loads presets <> Ok traces.
Proof.
  intros Hin Hz. unfold create_metrics_comparison.
  apply (metrics_loop_raises presets [] n p Hin).
  destruct Hz as [-> | ->]; [ apply Qmult_0_l | apply Qmult_0_r ].
Qed.

End ChartProperties.

Lemma comparison_chart_rows_witness :
  create_comparison_chart pyval (fun v => Ok v)
    (saved_presets (fun v => v)
       [ mkPreset "miner" scenario_grid; mkPreset "drifter" weightless_grid ])
  = Ok [ mkChartRow "miner" "Atmospheric" 164000;
         mkChartRow "miner" "Ion" 0;
         mkChartRow "miner" "Hydrogen" 0;
         mkChartRow "drifter" "Atmospheric" 82000;
         mkChartRow "drifter" "Ion" 0;
         mkChartRow "drifter" "Hydrogen" 0 ].
Proof.
  apply (comparison_chart_rows pyval (fun v => v) (fun v => Ok v)
           (fun v => eq_refl)
           [ mkPreset "miner" scenario_grid;
             mkPreset "drifter" weightless_grid ]).
Defined.

Lemma metrics_chart_fails_on_degenerate_preset_witness :
  ~ exists traces,
      create_metrics_comparison pyval (fun v => Ok v)
        (saved_presets (fun v => v)
           [ mkPreset "miner" scenario_grid;
             mkPreset "drifter" weightless_grid ])
      = Ok traces.
Proof.
  intros [traces E]. revert E.
  apply (metrics_chart_fails_on_degenerate_preset pyval (fun v => v)
           (fun v => Ok v) (fun v => eq_refl)
           (saved_presets (fun v => v)
              [ mkPreset "miner" scenario_grid;
                mkPreset "drifter" weightless_grid ])
           "drifter" (mkPreset "drifter" weightless_grid)).
  - right. left. reflexivity.
  - right. reflexivity.
Defined.

(** X19. For a grid with positive mass and gravity and non-negative counts
    the three radial values of the metrics chart are defined; the lift value
    is never negative and the ratio value lies in [0,1], reaching 1 once the
    ratio is 10 or more, while the thrust value is total thrust over 10^7,
    not clamped, so it leaves the axis range [0,1] above 10^7 N. *)
Theorem radar_values_range (s : GridSpecifications) :
  counts_non_negative s -> (0 < mass s)%Q -> (0 < gravity s)%Q ->
  exists r0 r1 r2,
    radar_values s = Ok [ r0; r1; r2 ] /\
    (r0 == inject_Z (totalThrust s) / 10000000)%Q /\
    (0 <= r1)%Q /\
    (0 <= r2)%Q /\ (r2 <= 1)%Q /\
    ((10 * (mass s * gravity s) <= inject_Z (totalThrust s))%Q -> (r2 == 1)%Q).
Proof.
  intros Hc Hm Hg.
  pose proof (weight_positive s Hm Hg) as Hw.
  destruct (totalThrust_non_negative s Hc) as (Ha & Hi & Hh).
  assert (HT : (0 <= inject_Z (totalThrust s))%Q)
    by (apply inject_Z_non_negative; unfold totalThrust; lia).
  unfold radar_values, unguarded_twr.
  rewrite calculate_total_thrust_eq. cbn [bind].
  rewrite (calculate_lift_capacity_ok s (positive_nonzero _ Hg)).
  rewrite (py_div_ok _ _ (positive_nonzero _ Hw)). cbn [bind]. cbv zeta.
  rewrite (py_div_ok _ 10000000) by (intros E; discriminate E). cbn [bind].
  set (lift := ((inject_Z (totalThrust s) - mass s * gravity s) / gravity s)%Q).
  set (twr := (inject_Z (totalThrust s) / (mass s * gravity s))%Q).
  assert (Htwr : (0 <= twr)%Q) by (apply (ratio_ge_iff _ _ 0 Hw); lra).
  rewrite (py_div_ok twr 10) by (intros E; discriminate E).
  assert (H10 : (0 < 10)%Q) by reflexivity.
  assert (Hr : (0 <= twr / 10)%Q) by (apply (ratio_ge_iff _ _ 0 H10); lra).
  destruct (Qltb 0 lift) eqn:El.
  - apply Qltb_lt in El.
    rewrite (py_div_ok lift 1000000) by (intros E; discriminate E).
    cbn [bind]. do 3 eexists. split; [ reflexivity |].
    assert (H6 : (0 < 1000000)%Q) by reflexivity.
    assert (0 <= lift / 1000000)%Q by (apply (ratio_ge_iff _ _ 0 H6); lra).
    split; [ reflexivity | split; [ assumption |] ].
    py_minmax_cases; repeat split; try lra; intros H10T;
      apply (ratio_ge_iff _ _ 10 Hw) in H10T; fold twr in H10T;
      assert (1 <= twr / 10)%Q by (apply (ratio_ge_iff _ _ 1 H10); lra); lra.
  - cbn [bind]. do 3 eexists. split; [ reflexivity |].
    split; [ reflexivity | split; [ discriminate |] ].
    py_minmax_cases; repeat split; try lra; intros H10T;
      apply (ratio_ge_iff _ _ 10 Hw) in H10T; fold twr in H10T;
      assert (1 <= twr / 10)%Q by (apply (ratio_ge_iff _ _ 1 H10); lra); lra.
Qed.

Lemma radar_values_range_witness :
  exists r0 r1 r2,
    radar_values scenario_grid = Ok [ r0; r1; r2 ] /\
    (r0 == inject_Z (totalThrust scenario_grid) / 10000000)%Q /\
    (0 <= r1)%Q /\
    (0 <= r2)%Q /\ (r2 <= 1)%Q /\
    ((10 * (mass scenario_grid * gravity scenario_grid)
      <= inject_Z (totalThrust scenario_grid))%Q -> (r2 == 1)%Q).
Proof.
  apply (radar_values_range scenario_grid); try reflexivity.
  repeat split; vm_compute; discriminate.
Defined.

(** ** The exports *)

Section ExportProperties.

Variable py_format : Q -> string -> string.
Variable str_float : Q -> string.
Variable str_int : Z -> string.

Lemma export_past_lift (s : GridSpecifications) :
  ~ (gravity s == 0)%Q ->
  export_grid_to_csv py_format str_float str_int s
  = (twr <- unguarded_twr s (totalThrust s) ;;
     Ok [ [ "Space Engineers Grid Specifications" ]; [];
          [ "Basic Specifications" ];
          [ "Mass (kg)"; str_float (mass s) ];
          [ "Gravity (m/s²)"; str_float (gravity s) ]; [];
          [ "Thruster Configuration" ]; [ "Type"; "Small"; "Large" ];
          [ "Atmospheric"; str_int (small (atmospheric_thrusters s));
            str_int (large (atmospheric_thrusters s)) ];
          [ "Ion"; str_int (small (ion_thrusters s));
            str_int (large (ion_thrusters s)) ];
          [ "Hydrogen"; str_int (small (hydrogen_thrusters s));
            str_int (large (hydrogen_thrusters s)) ];
          [];
          [ "Performance Analysis" ];
          [ "Total Thrust (N)";
            format_number py_format (inject_Z (totalThrust s)) ];
          [ "Atmospheric Thrust (N)";
            format_number py_format (inject_Z (atmosphericThrust s)) ];
          [ "Ion Thrust (N)";
            format_number py_format (inject_Z (ionThrust s)) ];
          [ "Hydrogen Thrust (N)";
            format_number py_format (inject_Z (hydrogenThrust s)) ];
          [ "Required Hover Thrust (N)";
            format_number py_format (mass s * gravity s)%Q ];
          [ "Lift Capacity (kg)";
            format_number py_format
              ((inject_Z (totalThrust s) - mass s * gravity s) / gravity s)%Q ];
          [ "Thrust-to-Weight Ratio"; format_number py_format twr ] ]).
Proof.
  intros Hg. unfold export_grid_to_csv.
  rewrite calculate_thrust_by_type_eq, calculate_total_thrust_eq.
  rewrite (calculate_lift_capacity_ok s Hg). cbn [bind].
  destruct (unguarded_twr s (totalThrust s)); reflexivity.
Qed.

Lemma report_past_lift (s : GridSpecifications) :
  ~ (gravity s == 0)%Q ->
  create_pdf_report py_format str_int s
  = (twr <- unguarded_twr s (totalThrust s) ;;
     Ok (mkReportTables
           [ [ "Mass (kg)"; format_number py_format (mass s) ];
             [ "Gravity (m/s²)"; format_number py_format (gravity s) ] ]
           [ [ "Type"; "Small"; "Large" ];
             [ "Atmospheric"; str_int (small (atmospheric_thrusters s));
               str_int (large (atmospheric_thrusters s)) ];
             [ "Ion"; str_int (small (ion_thrusters s));
               str_int (large (ion_thrusters s)) ];
             [ "Hydrogen"; str_int (small (hydrogen_thrusters s));
               str_int (large (hydrogen_thrusters s)) ] ]
           [ [ "Metric"; "Value" ];
             [ "Total Thrust (N)";
               format_number py_format (inject_Z (totalThrust s)) ];
             [ "Atmospheric Thrust (N)";
               format_number py_format (inject_Z (atmosphericThrust s)) ];
             [ "Ion Thrust (N)";
               format_number py_format (inject_Z (ionThrust s)) ];
             [ "Hydrogen Thrust (N)";
               format_number py_format (inject_Z (hydrogenThrust s)) ];
             [ "Required Hover Thrust (N)";
               format_number py_format (mass s * gravity s)%Q ];
             [ "Lift Capacity (kg)";
               format_number py_format
                 ((inject_Z (totalThrust s) - mass s * gravity s) / gravity s)%Q ];
             [ "Thrust-to-Weight Ratio"; format_number py_format twr ] ])).
Proof.
  intros Hg. unfold create_pdf_report.
  rewrite calculate_thrust_by_type_eq, calculate_total_thrust_eq.
  rewrite (calculate_lift_capacity_ok s Hg). cbn [bind].
  destruct (getitem_thrusts (atmosphericThrust s) (ionThrust s)
              (hydrogenThrust s)) as (Ga & Gi & Gh).
  cbv zeta in Ga, Gi, Gh. rewrite Ga, Gi, Gh. cbn [bind].
  destruct (unguarded_twr s (totalThrust s)); reflexivity.
Qed.

Lemma exports_raise_at_zero_gravity (s : GridSpecifications) :
  (gravity s == 0)%Q ->
  export_grid_to_csv py_format str_float str_int s = Raise ZeroDivisionError /\
  create_pdf_report py_format str_int s = Raise ZeroDivisionError.
Proof.
  intros Hg.
  assert (L : calculate_lift_capacity s = Raise ZeroDivisionError).
  { unfold calculate_lift_capacity. rewrite calculate_total_thrust_eq.
    cbn [bind]. now apply py_div_zero. }
  unfold export_grid_to_csv, create_pdf_report.
  rewrite calculate_thrust_by_type_eq, calculate_total_thrust_eq, L.
  split; reflexivity.
Qed.

(** X20. Both exports succeed exactly when neither the mass nor the gravity
    is 0: otherwise both raise [ZeroDivisionError]; when they succeed the
    CSV has 20 rows and the report's performance table 8. *)
Theorem exports_defined_iff_weight (s : GridSpecifications) :
  (~ (mass s == 0)%Q /\ ~ (gravity s == 0)%Q ->
   exists rows tables,
     export_grid_to_csv py_format str_float str_int s = Ok rows /\
     create_pdf_report py_format str_int s = Ok tables /\
     length rows = 20%nat /\ length (performance_data tables) = 8%nat) /\
  ((mass s == 0)%Q \/ (gravity s == 0)%Q ->
   export_grid_to_csv py_format str_float str_int s = Raise ZeroDivisionError /\
   create_pdf_report py_format str_int s = Raise ZeroDivisionError).
Proof.
  split.
  - intros (Hm & Hg).
    rewrite (export_past_lift s Hg), (report_past_lift s Hg).
    unfold unguarded_twr. rewrite (py_div_ok _ _ (weight_nonzero s Hm Hg)).
    cbn [bind]. do 2 eexists. repeat split.
  - intros H. destruct (Qeq_dec (gravity s) 0) as [Hg | Hg].
    + now apply exports_raise_at_zero_gravity.
    + destruct H as [Hm | H]; [| contradiction ].
      rewrite (export_past_lift s Hg), (report_past_lift s Hg).
      unfold unguarded_twr.
      rewrite py_div_zero by (rewrite Hm; apply Qmult_0_l).
      split; reflexivity.
Qed.

(** X21. The two exports agree: one fails exactly when the other does, and
    when they succeed the CSV rows after the "Performance Analysis" title
    are the rows of the report's performance table after its header, and the
    four rows of the CSV's thruster block are the report's thruster table. *)
Theorem exports_agree (s : GridSpecifications) :
  (forall e,
     export_grid_to_csv py_format str_float str_int s = Raise e <->
     create_pdf_report py_format str_int s = Raise e) /\
  (forall rows tables,
     export_grid_to_csv py_format str_float str_int s = Ok rows ->
     create_pdf_report py_format str_int s = Ok tables ->
     skipn 13 rows = tl (performance_data tables) /\
     firstn 4 (skipn 7 rows) = thruster_data tables).
Proof.
  destruct (Qeq_dec (gravity s) 0) as [Hg | Hg].
  - destruct (exports_raise_at_zero_gravity s Hg) as [-> ->].
    split; [ intros e; split; intros H; injection H as <-; reflexivity | discriminate ].
  - rewrite (export_past_lift s Hg), (report_past_lift s Hg).
    destruct (unguarded_twr s (totalThrust s)) as [twr | e0]; cbn [bind].
    + split.
      * intros e. split; discriminate.
      * intros rows tables Hr Hp.
        injection Hr as <-. injection Hp as <-. split; reflexivity.
    + split; [ intros e; split; intros H; injection H as <-; reflexivity | discriminate ].
Qed.

End ExportProperties.

Lemma exports_defined_iff_weight_witness :
  (exists rows tables,
     export_grid_to_csv blank_format (fun _ => "") (fun _ => "") scenario_grid
     = Ok rows /\
     create_pdf_report blank_format (fun _ => "") scenario_grid = Ok tables /\
     length rows = 20%nat /\ length (performance_data tables) = 8%nat) /\
  create_pdf_report blank_format (fun _ => "") weightless_grid
  = Raise ZeroDivisionError.
Proof.
  split.
  - refine (proj1 (exports_defined_iff_weight blank_format (fun _ => "")
                     (fun _ => "") scenario_grid) _).
    split; vm_compute; discriminate.
  - refine (proj2 (proj2 (exports_defined_iff_weight blank_format
                            (fun _ => "") (fun _ => "") weightless_grid) _)).
    right. reflexivity.
Defined.

Lemma exports_agree_witness :
  exists rows tables,
    export_grid_to_csv blank_format (fun _ => "") (fun _ => "") scenario_grid
    = Ok rows /\
    create_pdf_report blank_format (fun _ => "") scenario_grid = Ok tables /\
    skipn 13 rows = tl (performance_data tables) /\
    firstn 4 (skipn 7 rows) = thruster_data tables.
Proof.
  do 2 eexists. split; [ reflexivity | split; [ reflexivity |] ].
  refine (proj2 (exports_agree blank_format (fun _ => "") (fun _ => "")
                   scenario_grid) _ _ _ _); reflexivity.
Defined.

(** ** Paragraphs of the response *)

Lemma split_head (c : ascii) (t : string) :
  exists seg rest,
    split_blank_lines (String c t) = seg :: rest /\
    (seg = "" \/ exists tail, seg = String c tail).
Proof.
  destruct t as [| c2 t2].
  - exists (String c ""), []. split; [ reflexivity | right; now exists "" ].
  - rewrite split_blank_lines_step. destruct (is_LF c && is_LF c2).
    + do 2 eexists. split; [ reflexivity | now left ].
    + destruct (split_blank_lines (String c2 t2)) as [| seg rest] eqn:E.
      * exfalso. exact (split_blank_lines_not_empty _ E).
      * exists (String c seg), rest.
        split; [ reflexivity | right; now exists seg ].
Qed.

Lemma segments_without_blank_line (s : string) :
  Forall (fun seg => has_blank_line seg = false) (split_blank_lines s).
Proof.
  assert (G : forall t,
             Forall (fun seg => has_blank_line seg = false)
                    (split_blank_lines t) /\
             forall c, Forall (fun seg => has_blank_line seg = false)
                              (split_blank_lines (String c t))).
  { induction t as [| c2 t2 [IH1 IH2]].
    - split; [| intros c ]; repeat constructor.
    - split; [ apply IH2 |]. intros c. rewrite split_blank_lines_step.
      destruct (is_LF c && is_LF c2) eqn:E.
      + constructor; [ reflexivity | exact IH1 ].
      + specialize (IH2 c2).
        destruct (split_head c2 t2) as (seg & rest & Es & Hs).
        rewrite Es in *. cbn [push_front].
        inversion IH2 as [| ? ? Hseg Hrest]; subst.
        constructor; [| exact Hrest ].
        destruct Hs as [-> | [tail ->]]; [ reflexivity |].
        cbn [has_blank_line] in *. rewrite E. exact Hseg. }
  apply G.
Qed.

Lemma split_single_paragraph (s : string) :
  has_blank_line s = false -> split_blank_lines s = [ s ].
Proof.
  assert (G : forall t,
             (has_blank_line t = false -> split_blank_lines t = [ t ]) /\
             forall c, has_blank_line (String c t) = false ->
                       split_blank_lines (String c t) = [ String c t ]).
  { induction t as [| c2 t2 [IH1 IH2]].
    - split; [| intros c ]; reflexivity.
    - split; [ apply IH2 |]. intros c H.
      cbn [has_blank_line] in H. apply orb_false_iff in H as [E H].
      rewrite split_blank_lines_step, E.
      rewrite (IH2 c2) by exact H. reflexivity. }
  apply G.
Qed.

(** X22. Splitting a response at blank lines loses nothing and leaves no
    blank line inside a segment: the segments joined by blank lines are the
    response again, there is always a first segment, and a response without
    a blank line is its own single segment. *)
Theorem split_blank_lines_segments (s : string) :
  join_blank_lines (split_blank_lines s) = s /\
  Forall (fun seg => has_blank_line seg = false) (split_blank_lines s) /\
  (exists first rest, split_blank_lines s = first :: rest) /\
  (has_blank_line s = false -> split_blank_lines s = [ s ]).
Proof.
  split; [ apply join_split_blank_lines |].
  split; [ apply segments_without_blank_line |].
  split; [| apply split_single_paragraph ].
  destruct (split_blank_lines s) as [| first rest] eqn:E.
  - exfalso. exact (split_blank_lines_not_empty s E).
  - now exists first, rest.
Qed.

Lemma split_blank_lines_segments_witness :
  split_blank_lines ("Efficient." ++ NL ++ "Add ion thrusters.")
  = [ "Efficient." ++ NL ++ "Add ion thrusters." ].
Proof.
  refine (proj2 (proj2 (proj2 (split_blank_lines_segments
                                 ("Efficient." ++ NL ++ "Add ion thrusters."))))
            _).
  reflexivity.
Defined.

Section AdvisoryProperties.

Variable py_format : Q -> string -> string.
Variable chat_completion : string -> string -> result string.

(** [analyze_grid] past the computations that precede the [try]. *)
Lemma analyze_grid_reaches_service (s : GridSpecifications) :
  ~ (gravity s == 0)%Q ->
  exists prompt,
    analyze_grid py_format chat_completion s
    = try_except
        (analysis <- chat_completion system_prompt prompt ;;
         let sections := split_blank_lines analysis in
         Ok [ ("efficiency",
               if (0 <? length sections)%nat then nth 0 sections ""
               else "Analysis unavailable");
              ("optimization",
               if (1 <? length sections)%nat then nth 1 sections ""
               else "No optimization suggestions");
              ("use_cases",
               if (2 <? length sections)%nat then nth 2 sections ""
               else "No use case analysis") ])
        (fun e =>
           Ok [ ("efficiency", "Error analyzing efficiency: " ++ str_exn e);
                ("optimization", "Analysis unavailable");
                ("use_cases", "Analysis unavailable") ]).
Proof.
  intros Hg. unfold analyze_grid.
  rewrite calculate_thrust_by_type_eq, calculate_total_thrust_eq.
  rewrite (calculate_lift_capacity_ok s Hg). cbn [bind].
  assert (Ht : exists twr, guarded_twr s (totalThrust s) = Ok twr).
  { unfold guarded_twr. destruct (Qltb 0 (mass s)) eqn:E.
    - eexists. apply py_div_ok. apply weight_nonzero; [| assumption ].
      apply Qltb_lt in E. now apply positive_nonzero.
    - eexists. reflexivity. }
  destruct Ht as [twr ->]. cbn [bind].
  destruct (getitem_thrusts (atmosphericThrust s) (ionThrust s)
              (hydrogenThrust s)) as (Ga & Gi & Gh).
  cbv zeta in Ga, Gi, Gh. rewrite Ga, Gi, Gh. cbn [bind].
  eexists. reflexivity.
Qed.

(** X23. When the service answers, with non-zero gravity, a text without a
    blank line, the whole text is the efficiency field and the other two
    fields are the placeholders "No optimization suggestions" and
    "No use case analysis". *)
Theorem analyze_grid_single_paragraph
    (s : GridSpecifications) (text : string) :
  ~ (gravity s == 0)%Q ->
  (forall prompt, chat_completion system_prompt prompt = Ok text) ->
  has_blank_line text = false ->
  analyze_grid py_format chat_completion s
  = Ok [ ("efficiency", text);
         ("optimization", "No optimization suggestions");
         ("use_cases", "No use case analysis") ].
Proof.
  intros Hg Hs Hb.
  destruct (analyze_grid_reaches_service s Hg) as [prompt ->].
  rewrite Hs. cbn [bind try_except]. cbv zeta.
  rewrite (split_single_paragraph text Hb). reflexivity.
Qed.

(** X24. With zero gravity [analyze_grid] raises [ZeroDivisionError] for
    every grid, before the prompt is built and whatever the service would
    answer: the lift capacity is computed outside the [try]. *)
Theorem analyze_grid_zero_gravity (s : GridSpecifications) :
  (gravity s == 0)%Q ->
  analyze_grid py_format chat_completion s = Raise ZeroDivisionError.
Proof.
  intros Hg. unfold analyze_grid.
  rewrite calculate_thrust_by_type_eq, calculate_total_thrust_eq.
  cbn [bind]. unfold calculate_lift_capacity.
  rewrite calculate_total_thrust_eq. cbn [bind].
  now rewrite py_div_zero.
Qed.

End AdvisoryProperties.

Lemma analyze_grid_single_paragraph_witness :
  analyze_grid blank_format (fun _ _ => Ok "Looks fine.") scenario_grid
  = Ok [ ("efficiency", "Looks fine.");
         ("optimization", "No optimization suggestions");
         ("use_cases", "No use case analysis") ].
Proof.
  apply (analyze_grid_single_paragraph blank_format
           (fun _ _ => Ok "Looks fine.") scenario_grid "Looks fine.").
  - vm_compute. discriminate.
  - intros prompt. reflexivity.
  - reflexivity.
Defined.

Lemma analyze_grid_zero_gravity_witness :
  analyze_grid blank_format (fun _ _ => Ok "Looks fine.") weightless_grid
  = Raise ZeroDivisionError.
Proof.
  apply (analyze_grid_zero_gravity blank_format (fun _ _ => Ok "Looks fine.")
           weightless_grid).
  reflexivity.
Defined.

(** ** Block masses *)

Lemma block_lookup (k : string) :
  (contains BLOCK_MASSES k = true /\
   exists ms ml,
     getitem BLOCK_MASSES k = Ok [ ("small", ms); ("large", ml) ] /\
     0 < ms /\ 0 < ml) \/
  (contains BLOCK_MASSES k = false /\
   getitem BLOCK_MASSES k = Raise (KeyError k)).
Proof.
  unfold contains, BLOCK_MASSES. cbn [existsb getitem fst orb].
  repeat (destruct (String.eqb _ k);
          [ left; split; [ reflexivity |];
            do 2 eexists; split; [ reflexivity | lia ] |]).
  right. split; reflexivity.
Qed.

Lemma total_mass_loop_sum (items : dict (Z * Z)) (acc : Q) :
  exists m, total_mass_loop items acc = Ok m /\
            (m == acc + inject_Z (sumZ (map entry_mass items)))%Q.
Proof.
  revert acc. induction items as [| [k [s l]] items IH]; intros acc.
  - exists acc. split; [ reflexivity |]. cbn. ring.
  - cbn [total_mass_loop map]. rewrite sumZ_cons, inject_Z_plus.
    unfold entry_mass at 1. cbn [fst snd].
    destruct (block_lookup k) as [(C & ms & ml & G & _) | (C & G)];
      rewrite C, G.
    + cbn [bind getitem]. cbn [String.eqb Ascii.eqb Bool.eqb bind].
      destruct (IH (acc + inject_Z (s * ms + l * ml))%Q) as (m & E & Hm).
      exists m. split; [ exact E |]. rewrite Hm. ring.
    + destruct (IH acc) as (m & E & Hm).
      exists m. split; [ exact E |]. rewrite Hm.
      change (inject_Z 0) with 0%Q. ring.
Qed.

Lemma total_mass_loop_app (d1 d2 : dict (Z * Z)) (acc : Q) :
  total_mass_loop (d1 ++ d2)%list acc
  = (m <- total_mass_loop d1 acc ;; total_mass_loop d2 m).
Proof.
  revert acc. induction d1 as [| [k [s l]] d1 IH]; intros acc;
    [ reflexivity |].
  cbn [app total_mass_loop].
  destruct (block_lookup k) as [(C & ms & ml & G & _) | (C & G)]; rewrite C.
  - rewrite G. cbn [bind getitem]. cbn [String.eqb Ascii.eqb Bool.eqb bind].
    apply IH.
  - apply IH.
Qed.

Lemma entry_mass_non_negative (item : string * (Z * Z)) :
  0 <= fst (snd item) -> 0 <= snd (snd item) -> 0 <= entry_mass item.
Proof.
  destruct item as [k [s l]]. cbn [fst snd]. intros Hs Hl.
  unfold entry_mass. cbn [fst snd].
  destruct (block_lookup k) as [(_ & ms & ml & G & Hms & Hml) | (_ & G)];
    rewrite G.
  - cbn [getitem]. cbn [String.eqb Ascii.eqb Bool.eqb]. nia.
  - lia.
Qed.

Lemma sum_entry_mass_non_negative (items : dict (Z * Z)) :
  Forall (fun item => 0 <= fst (snd item) /\ 0 <= snd (snd item)) items ->
  0 <= sumZ (map entry_mass items).
Proof.
  induction 1 as [| item items [Hi1 Hi2] _ IH]; [ discriminate |].
  cbn [map]. rewrite sumZ_cons.
  pose proof (entry_mass_non_negative item Hi1 Hi2). lia.
Qed.

(** X25. [calculate_total_mass] never raises, and the mass of two dicts of
    counts put one after the other is the sum of their masses. *)
Theorem total_mass_additive (d1 d2 : dict (Z * Z)) :
  exists m1 m2 m,
    calculate_total_mass d1 = Ok m1 /\
    calculate_total_mass d2 = Ok m2 /\
    calculate_total_mass (d1 ++ d2)%list = Ok m /\
    (m == m1 + m2)%Q.
Proof.
  unfold calculate_total_mass.
  destruct (total_mass_loop_sum d1 0) as (m1 & E1 & H1).
  destruct (total_mass_loop_sum d2 0) as (m2 & E2 & H2).
  destruct (total_mass_loop_sum d2 m1) as (m & E & H).
  exists m1, m2, m. repeat split; try assumption.
  - rewrite total_mass_loop_app, E1. exact E.
  - rewrite H, H2. ring.
Qed.

(** X26. An entry whose block type is not in the mass table is skipped: it
    changes neither the result nor whether there is one, wherever it stands
    among the counts. *)
Theorem total_mass_skips_unknown_type
    (d1 d2 : dict (Z * Z)) (k : string) (counts : Z * Z) :
  contains BLOCK_MASSES k = false ->
  calculate_total_mass (d1 ++ (k, counts) :: d2)%list
  = calculate_total_mass (d1 ++ d2)%list.
Proof.
  intros C. unfold calculate_total_mass.
  rewrite !total_mass_loop_app.
  destruct (total_mass_loop d1 0) as [m |]; [| reflexivity ].
  cbn [bind total_mass_loop]. destruct counts as [s l]. now rewrite C.
Qed.

Lemma total_mass_skips_unknown_type_witness :
  calculate_total_mass
    ([ ("refinery", (0, 1)) ] ++ ("warp_core", (7, 7)) :: [ ("reactor", (2, 0)) ])%list
  = calculate_total_mass
      ([ ("refinery", (0, 1)) ] ++ [ ("reactor", (2, 0)) ])%list.
Proof.
  apply (total_mass_skips_unknown_type [ ("refinery", (0, 1)) ]
           [ ("reactor", (2, 0)) ] "warp_core" (7, 7)).
  reflexivity.
Defined.

(** X27. For non-negative counts the total mass is a non-negative whole
    number of kilograms: the sum, over the entries, of the small count times
    the table's small mass plus the large count times its large mass, a type
    missing from the table counting for nothing. *)
Theorem total_mass_non_negative (block_counts : dict (Z * Z)) :
  Forall (fun item => 0 <= fst (snd item) /\ 0 <= snd (snd item)) block_counts ->
  exists m,
    calculate_total_mass block_counts = Ok m /\
    (m == inject_Z (sumZ (map entry_mass block_counts)))%Q /\
    (0 <= m)%Q.
Proof.
  intros H. unfold calculate_total_mass.
  destruct (total_mass_loop_sum block_counts 0) as (m & E & Hm).
  exists m. split; [ exact E |].
  assert (Hs : (m == inject_Z (sumZ (map entry_mass block_counts)))%Q)
    by (rewrite Hm; ring).
  split; [ exact Hs |]. rewrite Hs.
  apply inject_Z_non_negative, sum_entry_mass_non_negative, H.
Qed.

Lemma total_mass_non_negative_witness :
  exists m,
    calculate_total_mass sample_block_counts = Ok m /\
    (m == inject_Z (sumZ (map entry_mass sample_block_counts)))%Q /\
    (0 <= m)%Q.
Proof.
  apply (total_mass_non_negative sample_block_counts).
  repeat constructor; vm_compute; discriminate.
Defined.

Example total_mass_example :
  exists m, calculate_total_mass sample_block_counts = Ok m /\ (m == 7550)%Q.
Proof. eexists. split; reflexivity. Qed.
